(** * tock-react-kit: renderer resolution, URL buttons and cards

    A shallow embedding of

    - [src/settings/RendererSettings.tsx]: the renderer registries and
      [getRenderer] / [getRendererOrDefault] / [useTextRenderer] /
      [useImageRenderer];
    - [src/components/buttons/UrlButton/UrlButton.tsx]: [UrlButton];
    - the card component ([CardProps], [cardButtonBaseStyle], [renderButton],
      [Card]).

    JavaScript values are an inductive type, objects used as property bags
    are finite maps from property names to values, renderer components are
    references into a heap of function objects (two registry slots can hold
    the same function, and labelling it through one is seen through the
    other), and the React context read by the hooks ([useTockSettings],
    [useTheme]) is part of the state that every component runs in.  A
    computation either completes normally or throws, as in JavaScript. *)

From stdpp Require Import gmap strings list fin_maps.
From Stdlib Require Import ZArith.

Set Warnings "-register-all".
Open Scope string_scope.

(** ** JavaScript values *)

Module Js.

(** The values that flow through the components: primitives, serialized
    emotion styles ([css`...`]), named functions (style functions of the
    theme, callbacks, ref callbacks), bound functions ([VBound f [this; x]]
    is [f.bind(this, x)]), arrays and plain objects. *)
Inductive Val :=
  | VUndefined
  | VNull
  | VBool (b : bool)
  | VNum (n : Z)
  | VStr (s : string)
  | VCss (styles : string)
  | VFun (f : string)
  | VBound (f : string) (args : list Val)
  | VArr (elems : list Val)
  | VObj (props : gmap string Val).

(** ToBoolean.  Numbers are integers here, so [0] is the only falsy one. *)
Definition truthy (v : Val) : bool :=
  match v with
  | VUndefined | VNull => false
  | VBool b => b
  | VNum n => negb (n =? 0)%Z
  | VStr s => negb (String.eqb s EmptyString)
  | _ => true
  end.

(** [a || b] and [a && b] on already evaluated operands. *)
Definition or (a b : Val) : Val := if truthy a then a else b.
Definition and (a b : Val) : Val := if truthy a then b else a.

(** [v == undefined]: loose equality holds for [undefined] and [null]. *)
Definition eq_undefined (v : Val) : bool :=
  match v with
  | VUndefined | VNull => true
  | _ => false
  end.

(** [o.k] on a property bag: a missing property reads as [undefined]. *)
Definition get (o : gmap string Val) (k : string) : Val :=
  default VUndefined (o !! k).

(** [k in o]. *)
Definition has (o : gmap string Val) (k : string) : bool :=
  bool_decide (is_Some (o !! k)).

(** [{...a, ...b}]: the properties of [b] win. *)
Definition spread (a b : gmap string Val) : gmap string Val := union b a.

(** [{...v}] for an arbitrary value: only objects contribute properties
    (spreading [false] or [undefined] adds nothing). *)
Definition own_props (v : Val) : gmap string Val :=
  match v with
  | VObj o => o
  | _ => empty
  end.

(** An optional string property ([x?: string]) as a value. *)
Definition of_opt_string (s : option string) : Val :=
  match s with
  | Some s => VStr s
  | None => VUndefined
  end.

(** Truthiness of an optional string: absent and empty are both falsy. *)
Definition truthy_str (s : option string) : bool := truthy (of_opt_string s).

End Js.

Import Js.

(** ** The heap of renderer components and the ambient context *)

(** A reference to a component (a function object). *)
Definition loc := positive.

(** The two properties of a function object that resolution touches:
    the function's own [name] and React's [displayName]. *)
Module Fn.
Record t := mk {
  name : option string;
  displayName : option string;
}.

Definition set_displayName (s : string) (f : t) : t :=
  {| name := name f; displayName := Some s |}.
End Fn.

(** [interface RendererRegistry { default: ... }]: an object mapping slot
    names to components; a slot that is not set is absent from the map. *)
Abbreviation RendererRegistry := (gmap string loc).

(** [keyof TextRenderers]. *)
Inductive TextRendererKey :=
  | text_default | text_html | text_htmlPhrase | text_userContent.

(** [keyof ImageRenderers]. *)
Inductive ImageRendererKey :=
  | image_default | image_standalone | image_card | image_buttonIcon.

(** The keys are string literal types; [key_name] is the string. *)
Class SlotKey (K : Type) := key_name : K -> string.

#[export] Instance TextRendererKey_name : SlotKey TextRendererKey := fun k =>
  match k with
  | text_default => "default"
  | text_html => "html"
  | text_htmlPhrase => "htmlPhrase"
  | text_userContent => "userContent"
  end.

#[export] Instance ImageRendererKey_name : SlotKey ImageRendererKey := fun k =>
  match k with
  | image_default => "default"
  | image_standalone => "standalone"
  | image_card => "card"
  | image_buttonIcon => "buttonIcon"
  end.

Record RendererSettings := mkRendererSettings {
  imageRenderers : RendererRegistry;
  textRenderers : RendererRegistry;
}.

(** What [useTockSettings()] returns, as far as the components read it. *)
Record TockSettings := mkTockSettings {
  renderers : RendererSettings;
}.

(** The part of the emotion theme the components read:
    [theme.overrides?.buttons?.urlButton] and the like.  A style override
    that is not set is [VUndefined]. *)
Module Theme.
Record ButtonOverrides := mkButtons {
  urlButton : Val;
  postbackButton : Val;
}.

Record CardOverrides := mkCard {
  cardImage : Val;
  cardButton : Val;
}.

Record Overrides := mkOverrides {
  buttons : option ButtonOverrides;
  card : option CardOverrides;
  quickReply : Val;
}.

Record t := mk {
  overrides : option Overrides;
}.

(** [theme.overrides?.buttons?.<field>] *)
Definition overrides_buttons (th : t) (field : ButtonOverrides -> Val) : Val :=
  match overrides th with
  | Some o => match buttons o with Some b => field b | None => VUndefined end
  | None => VUndefined
  end.

(** [theme.overrides?.card?.<field>] *)
Definition overrides_card (th : t) (field : CardOverrides -> Val) : Val :=
  match overrides th with
  | Some o => match card o with Some c => field c | None => VUndefined end
  | None => VUndefined
  end.

(** [theme.overrides?.quickReply] *)
Definition overrides_quickReply (th : t) : Val :=
  match overrides th with
  | Some o => quickReply o
  | None => VUndefined
  end.
End Theme.

(** What a render pass runs in: the values provided by the React contexts
    ([useTockSettings()], [useTheme()]) and the function objects. *)
Record World := mkWorld {
  tockSettings : TockSettings;
  emotionTheme : Theme.t;
  heap : loc -> Fn.t;
}.

Definition store (r : loc) (f : Fn.t) (h : loc -> Fn.t) : loc -> Fn.t :=
  fun r' => if decide (r' = r) then f else h r'.

Definition set_heap (h : loc -> Fn.t) (w : World) : World :=
  {| tockSettings := tockSettings w; emotionTheme := emotionTheme w; heap := h |}.

(** ** Computations: state passing with JavaScript exceptions *)

Inductive Exn := TypeError.

Inductive Completion (A : Type) :=
  | Normal (a : A)
  | Throw (e : Exn).
Arguments Normal {A} a.
Arguments Throw {A} e.

Definition M (A : Type) := World -> Completion A * World.

Definition ret {A} (a : A) : M A := fun w => (Normal a, w).

Definition throw {A} (e : Exn) : M A := fun w => (Throw e, w).

Definition bind {A B} (m : M A) (k : A -> M B) : M B := fun w =>
  match m w with
  | (Normal a, w') => k a w'
  | (Throw e, w') => (Throw e, w')
  end.

Notation "'let!' x := m 'in' k" := (bind m (fun x => k))
  (at level 10, x name, m at level 100, k at level 200).
Notation "'do!' m 'in' k" := (bind m (fun _ => k))
  (at level 10, m at level 100, k at level 200).

(** Reading the context. *)
Definition useTockSettings : M TockSettings := fun w => (Normal (tockSettings w), w).
Definition useTheme : M Theme.t := fun w => (Normal (emotionTheme w), w).

(** [r.displayName] and [r.name], where [r] is what a registry slot read
    gave: reading a property of [undefined] throws. *)
Definition read_displayName (r : option loc) : M (option string) := fun w =>
  match r with
  | Some l => (Normal (Fn.displayName (heap w l)), w)
  | None => (Throw TypeError, w)
  end.

Definition read_name (r : option loc) : M (option string) := fun w =>
  match r with
  | Some l => (Normal (Fn.name (heap w l)), w)
  | None => (Throw TypeError, w)
  end.

(** [r.displayName = s] on an ordinary function component, which takes the
    assignment.  A component of the host can also refuse it (a frozen
    function): [Host.write_displayName] below has that case. *)
Definition write_displayName (r : option loc) (s : string) : M unit := fun w =>
  match r with
  | Some l => (Normal tt, set_heap (store l (Fn.set_displayName s (heap w l)) (heap w)) w)
  | None => (Throw TypeError, w)
  end.

(** ** [RendererSettings.tsx] *)

(** [`${type}(${renderer.name?.length ? renderer.name : name})`] *)
Definition prettyName (type : string) (fname : option string) (slot : string) : string :=
  type ++ "(" ++ (if truthy_str fname then default EmptyString fname else slot) ++ ")".

Definition getRenderer (type : string) (renderers : RendererRegistry) (name : string)
  : M (option loc) :=
  let renderer := renderers !! name in
  do! (if bool_decide (is_Some renderer) then
         let! dn := read_displayName renderer in
         if negb (truthy_str dn) then
           let! fname := read_name renderer in
           write_displayName renderer (prettyName type fname name)
         else ret tt
       else ret tt) in
  ret renderer.

(** [a ?? b]: the right operand is only evaluated when the left one is
    [undefined] (or [null]). *)
Definition getRendererOrDefault (type : string) (renderers : RendererRegistry)
  (name : string) : M (option loc) :=
  let! r := getRenderer type renderers name in
  match r with
  | Some _ => ret r
  | None => getRenderer type renderers "default"
  end.

Definition useTextRenderer (name : TextRendererKey) : M (option loc) :=
  let! settings := useTockSettings in
  let textRenderers := textRenderers (renderers settings) in
  getRendererOrDefault "TextRenderer" textRenderers (key_name name).

Definition useImageRenderer (name : ImageRendererKey) : M (option loc) :=
  let! settings := useTockSettings in
  let imageRenderers := imageRenderers (renderers settings) in
  getRendererOrDefault "ImageRenderer" imageRenderers (key_name name).

(** ** Rendered output *)

(** What a JSX tag names: an intrinsic element ([<a>], [<li>]), a styled
    component of the card module ([styled.li`...`], with the name of the
    constant it is bound to), or a component function. *)
Inductive ElementType :=
  | Intrinsic (tag : string)
  | Styled (tag : string) (const : string)
  | Component (fn : string).

#[export] Instance ElementType_eq_dec : EqDecision ElementType.
Proof. solve_decision. Defined.

(** A React node: a JSX element with its props and children, a plain value
    in child position ([{label}], or the falsy left operand of an [&&]), or
    what a renderer of the host returned when it was called.  [key] and
    [ref] are kept with the other props. *)
Inductive Node :=
  | Element (type : ElementType) (props : gmap string Val) (children : list Node)
  | Child (v : Val)
  | Rendered (renderer : loc) (arg : Val).

(** A node and everything below it. *)
Fixpoint descendants (n : Node) : list Node :=
  n :: match n with
       | Element _ _ children => flat_map descendants children
       | _ => []
       end.

(** Calling what resolution gave, an ordinary function component: calling
    [undefined] throws.  A component of the host need not be a function that
    can be called: [Host.call] below has that case. *)
Definition call (f : option loc) (arg : Val) : M Node :=
  match f with
  | Some l => ret (Rendered l arg)
  | None => throw TypeError
  end.

(** ** [UrlButton.tsx] *)

Section UrlButton.

(** Imported from the quick reply module. *)
Variables baseButtonStyle quickReplyStyle : Val.

Definition defaultAnchorStyle : Val :=
  VCss "text-align: center; text-decoration: none;".

Definition QuickReplyImage : ElementType := Component "QuickReplyImage".

(** The [anchorStyle] array of [UrlButton]. *)
Definition anchorStyle (customStyle : Val) (theme : Theme.t) : list Val :=
  [ baseButtonStyle;
    defaultAnchorStyle;
    Js.or customStyle
      (VArr [ quickReplyStyle;
              Js.or (Theme.overrides_buttons theme Theme.urlButton)
                    (Theme.overrides_quickReply theme) ]) ].

(** [props] is the props object; the destructuring pattern reads [url],
    [imageUrl], [label], [target] (['_blank'] when undefined) and
    [customStyle] from it and ignores every other property. *)
Definition UrlButton (props : gmap string Val) : M Node :=
  let url := Js.get props "url" in
  let imageUrl := Js.get props "imageUrl" in
  let label := Js.get props "label" in
  let target :=
    match Js.get props "target" with
    | VUndefined => VStr "_blank"
    | v => v
    end in
  let customStyle := Js.get props "customStyle" in
  let! theme := useTheme in
  ret (Element (Intrinsic "a")
         (<["href" := url]> (<["target" := target]>
           (<["css" := VArr (anchorStyle customStyle theme)]> empty)))
         [ if truthy imageUrl
           then Element QuickReplyImage (<["src" := imageUrl]> empty) []
           else Child imageUrl;
           Child label ]).

End UrlButton.

(** ** The card component *)

Definition CardOuter : ElementType := Styled "li" "CardOuter".
Definition CardContainer : ElementType := Styled "article" "CardContainer".
Definition CardTitle : ElementType := Styled "h3" "CardTitle".
Definition CardSubTitle : ElementType := Styled "p" "CardSubTitle".
Definition ButtonList : ElementType := Styled "ul" "ButtonList".

(** [cardButtonBaseStyle] is a function of the theme; the card passes the
    function itself in its style lists. *)
Definition cardButtonBaseStyle : Val := VFun "cardButtonBaseStyle".

(** A button of the model: an object; URL buttons are the ones with a [url]
    property. *)
Abbreviation ButtonData := (gmap string Val).

(** [buttons?: ButtonData[]]: omitted, some value that is not an array, or
    an array. *)
Inductive ButtonsProp :=
  | buttons_undefined
  | buttons_not_array
  | buttons_array (bs : list ButtonData).

Definition Array_isArray (b : ButtonsProp) : bool :=
  match b with
  | buttons_array _ => true
  | _ => false
  end.

(** The elements of [buttons] once it is known to be an array. *)
Definition elements (b : ButtonsProp) : list ButtonData :=
  match b with
  | buttons_array bs => bs
  | _ => []
  end.

Record CardProps := mkCardProps {
  title : string;
  subTitle : option string;
  imageUrl : option string;
  imageAlternative : option string;
  buttons : ButtonsProp;
  roleDescription : option string;
  isHidden : option bool;
  onAction : string;
}.

(** The props [renderButton] gives to [<UrlButton>]:
    [customStyle={[...]} {...button}]. *)
Definition urlButtonProps (theme : Theme.t) (button : ButtonData)
  : gmap string Val :=
  Js.spread
    (<["customStyle" :=
         VArr [ cardButtonBaseStyle;
                Theme.overrides_buttons theme Theme.urlButton;
                Theme.overrides_card theme Theme.cardButton ]]> empty)
    button.

(** The props [renderButton] gives to [<PostBackButton>]:
    [customStyle={[...]} onClick={...} onKeyPress={...} {...button}
     {...(isHidden && { tabIndex: -1 })}]. *)
Definition postBackButtonProps (theme : Theme.t) (onAction : string)
  (isHidden : bool) (button : ButtonData) : gmap string Val :=
  Js.spread
    (Js.spread
       (<["customStyle" :=
            VArr [ cardButtonBaseStyle;
                   Theme.overrides_buttons theme Theme.postbackButton;
                   Theme.overrides_card theme Theme.cardButton ]]>
        (<["onClick" := VBound onAction [VNull; VObj button]]>
        (<["onKeyPress" := VBound onAction [VNull; VObj button]]> empty)))
       button)
    (Js.own_props
       (Js.and (VBool isHidden) (VObj (<["tabIndex" := VNum (-1)]> empty)))).

(** The element inside the [<li>] that [renderButton] returns:
    ['url' in button ? <UrlButton ... /> : <PostBackButton ... />]. *)
Definition buttonElement (theme : Theme.t) (onAction : string) (isHidden : bool)
  (button : ButtonData) : Node :=
  if Js.has button "url"
  then Element (Component "UrlButton") (urlButtonProps theme button) []
  else Element (Component "PostBackButton")
         (postBackButtonProps theme onAction isHidden button) [].

(** [renderButton] inside [cardRender]; [theme], [onAction] and [isHidden]
    are the variables it closes over. *)
Definition renderButton (theme : Theme.t) (onAction : string) (isHidden : bool)
  (button : ButtonData) (index : nat) : Node :=
  Element (Intrinsic "li") (<["key" := VNum (Z.of_nat index)]> empty)
    [ buttonElement theme onAction isHidden button ].

(** The props of [<CardOuter>]. *)
Definition cardOuterProps (roleDescription : option string) (ref : Val)
  : gmap string Val :=
  <["ref" := ref]>
  (<["role" := if eq_undefined ref then VUndefined else VStr "group"]>
  (<["aria-roledescription" :=
       if eq_undefined ref then VUndefined
       else if truthy_str roleDescription
            then of_opt_string roleDescription
            else VStr "Slide"]> empty)).

(** [Array.isArray(buttons) && buttons.length > 0 && (<ButtonList ...>)] *)
Definition cardButtonList (theme : Theme.t) (onAction : string) (isHidden : bool)
  (buttons : ButtonsProp) : Node :=
  if Array_isArray buttons && (0 <? length (elements buttons))%nat then
    Element ButtonList (<["role" := VStr "group"]> empty)
      (imap (fun index button => renderButton theme onAction isHidden button index)
         (elements buttons))
  else Child (VBool false).

(** [forwardRef(function cardRender(props, ref) { ... })] *)
Definition Card (props : CardProps) (ref : Val) : M Node :=
  let isHidden := default false (isHidden props) in
  let! theme := useTheme in
  let cardImageCss :=
    VArr [ VCss "max-width: 100%; max-height: 100%;";
           Theme.overrides_card theme Theme.cardImage ] in
  let! renderImage := useImageRenderer image_card in
  let! renderHtml := useTextRenderer text_htmlPhrase in
  let! image :=
    (if truthy_str (imageUrl props) then
       call renderImage
         (VObj (<["src" := of_opt_string (imageUrl props)]>
               (<["alt" := of_opt_string (imageAlternative props)]>
               (<["css" := cardImageCss]> empty))))
     else ret (Child (of_opt_string (imageUrl props)))) in
  let! titleHtml := call renderHtml (VStr (title props)) in
  let! subTitleNode :=
    (if truthy_str (subTitle props) then
       let! html := call renderHtml (of_opt_string (subTitle props)) in
       ret (Element CardSubTitle empty [html])
     else ret (Child (of_opt_string (subTitle props)))) in
  ret (Element CardOuter (cardOuterProps (roleDescription props) ref)
         [ Element CardContainer (<["aria-hidden" := VBool isHidden]> empty)
             [ image;
               Element CardTitle empty [titleHtml];
               subTitleNode;
               cardButtonList theme (onAction props) isHidden (buttons props) ] ]).

(** ** Components that are not ordinary functions *)

(** The definitions above run the code on ordinary function components.  The
    host can also register a component that refuses the assignment of
    [displayName] (in strict mode the assignment to a frozen or otherwise
    non-extensible object throws a [TypeError]) or that cannot be called as
    a function (a class, or the object that [React.memo] or
    [React.forwardRef] returns).  [Host] runs the same code with these
    attributes of the components taken into account. *)
Module Host.

Record Attributes := mkAttributes {
  assignable : bool;
  callable : bool;
}.

(** A plain function, [Object.freeze(f)], and [React.memo(f)]. *)
Definition ordinary : Attributes := {| assignable := true; callable := true |}.
Definition wrapped : Attributes := {| assignable := true; callable := false |}.

Section Components.

Variable attributes : loc -> Attributes.

(** [r.displayName = s] *)
Definition write_displayName (r : option loc) (s : string) : M unit := fun w =>
  match r with
  | Some l =>
      if assignable (attributes l)
      then (Normal tt, set_heap (store l (Fn.set_displayName s (heap w l)) (heap w)) w)
      else (Throw TypeError, w)
  | None => (Throw TypeError, w)
  end.

Definition getRenderer (type : string) (renderers : RendererRegistry) (name : string)
  : M (option loc) :=
  let renderer := renderers !! name in
  do! (if bool_decide (is_Some renderer) then
         let! dn := read_displayName renderer in
         if negb (truthy_str dn) then
           let! fname := read_name renderer in
           write_displayName renderer (prettyName type fname name)
         else ret tt
       else ret tt) in
  ret renderer.

Definition getRendererOrDefault (type : string) (renderers : RendererRegistry)
  (name : string) : M (option loc) :=
  let! r := getRenderer type renderers name in
  match r with
  | Some _ => ret r
  | None => getRenderer type renderers "default"
  end.

Definition useTextRenderer (name : TextRendererKey) : M (option loc) :=
  let! settings := useTockSettings in
  let textRenderers := textRenderers (renderers settings) in
  getRendererOrDefault "TextRenderer" textRenderers (key_name name).

Definition useImageRenderer (name : ImageRendererKey) : M (option loc) :=
  let! settings := useTockSettings in
  let imageRenderers := imageRenderers (renderers settings) in
  getRendererOrDefault "ImageRenderer" imageRenderers (key_name name).

(** [f(arg)]: calling [undefined], or a component that is not a function
    that can be called, throws. *)
Definition call (f : option loc) (arg : Val) : M Node :=
  match f with
  | Some l => if callable (attributes l) then ret (Rendered l arg) else throw TypeError
  | None => throw TypeError
  end.

(** [forwardRef(function cardRender(props, ref) { ... })] *)
Definition Card (props : CardProps) (ref : Val) : M Node :=
  let isHidden := default false (isHidden props) in
  let! theme := useTheme in
  let cardImageCss :=
    VArr [ VCss "max-width: 100%; max-height: 100%;";
           Theme.overrides_card theme Theme.cardImage ] in
  let! renderImage := useImageRenderer image_card in
  let! renderHtml := useTextRenderer text_htmlPhrase in
  let! image :=
    (if truthy_str (imageUrl props) then
       call renderImage
         (VObj (<["src" := of_opt_string (imageUrl props)]>
               (<["alt" := of_opt_string (imageAlternative props)]>
               (<["css" := cardImageCss]> empty))))
     else ret (Child (of_opt_string (imageUrl props)))) in
  let! titleHtml := call renderHtml (VStr (title props)) in
  let! subTitleNode :=
    (if truthy_str (subTitle props) then
       let! html := call renderHtml (of_opt_string (subTitle props)) in
       ret (Element CardSubTitle empty [html])
     else ret (Child (of_opt_string (subTitle props)))) in
  ret (Element CardOuter (cardOuterProps (roleDescription props) ref)
         [ Element CardContainer (<["aria-hidden" := VBool isHidden]> empty)
             [ image;
               Element CardTitle empty [titleHtml];
               subTitleNode;
               cardButtonList theme (onAction props) isHidden (buttons props) ] ]).

End Components.

End Host.

(** ** Auxiliary definitions for the statements *)

(** The world after [getRenderer type renderers name] has run in [w]: the
    component bound to the slot carries a display name. *)
Definition labelled (type : string) (renderers : RendererRegistry) (name : string)
  (w : World) : World :=
  match renderers !! name with
  | Some l =>
      if truthy_str (Fn.displayName (heap w l)) then w
      else set_heap
             (store l (Fn.set_displayName
                         (prettyName type (Fn.name (heap w l)) name) (heap w l))
                (heap w)) w
  | None => w
  end.

(** The slot that resolution ends up reading. *)
Definition resolved_slot (renderers : RendererRegistry) (name : string) : string :=
  match renderers !! name with
  | Some _ => name
  | None => "default"
  end.

(** Nodes that have nothing below them. *)
Definition is_leaf (n : Node) : Prop :=
  match n with
  | Element _ _ _ => False
  | _ => True
  end.

Definition element_type (n : Node) : option ElementType :=
  match n with
  | Element type _ _ => Some type
  | _ => None
  end.

Definition props_of (n : Node) : gmap string Val :=
  match n with
  | Element _ props _ => props
  | _ => empty
  end.

(** Is the node a [<ButtonList>] element; does it carry [role="group"]. *)
Definition is_button_list (n : Node) : bool :=
  bool_decide (element_type n = Some ButtonList).

Definition has_role_group (n : Node) : bool :=
  match Js.get (props_of n) "role" with
  | VStr role => String.eqb role "group"
  | _ => false
  end.

(** What a run returned ([undefined] stands in when it threw). *)
Definition output (run : Completion Node * World) : Node :=
  match fst run with
  | Normal out => out
  | Throw _ => Child VUndefined
  end.

(** *** Sample inputs *)

(** Components [1] (an anonymous function), [2] (a function called [Img]
    whose [displayName] is the empty string) and the others (functions
    called [Txt] that have a display name already). *)
Definition sample_heap : loc -> Fn.t := fun l =>
  if decide (l = 1%positive) then {| Fn.name := Some EmptyString; Fn.displayName := None |}
  else if decide (l = 2%positive) then {| Fn.name := Some "Img"; Fn.displayName := Some EmptyString |}
  else {| Fn.name := Some "Txt"; Fn.displayName := Some "Text" |}.

(** [{ default: 1, card: 2 }] and [{ default: 3, htmlPhrase: 3 }]. *)
Definition sample_settings : TockSettings :=
  {| renderers :=
       {| imageRenderers := <["default" := 1%positive]> (<["card" := 2%positive]> empty);
          textRenderers := <["default" := 3%positive]> (<["htmlPhrase" := 3%positive]> empty) |} |}.

Definition sample_theme : Theme.t := {| Theme.overrides := None |}.

Definition sample_world : World :=
  {| tockSettings := sample_settings; emotionTheme := sample_theme; heap := sample_heap |}.

(** A registry whose [default] slot is not populated. *)
Definition no_default_world : World :=
  {| tockSettings :=
       {| renderers := {| imageRenderers := <["card" := 2%positive]> empty;
                          textRenderers := empty |} |};
     emotionTheme := sample_theme;
     heap := sample_heap |}.

Definition sample_postback : ButtonData :=
  <["label" := VStr "Yes"]> (<["payload" := VStr "yes"]> empty).

Definition sample_url : ButtonData :=
  <["label" := VStr "Site"]> (<["url" := VStr "https://example.org"]> empty).

Definition sample_card (hidden : bool) (bs : ButtonsProp) : CardProps :=
  {| title := "Title"; subTitle := None; imageUrl := Some "pic.png";
     imageAlternative := None; buttons := bs; roleDescription := Some EmptyString;
     isHidden := Some hidden; onAction := "onAction" |}.

(** A hidden card with a postback button and a URL button, rendered without
    a forwarded ref. *)
Definition hidden_card : CardProps :=
  sample_card true (buttons_array [sample_postback; sample_url]).

Definition hidden_card_run : Completion Node * World :=
  Card hidden_card VNull sample_world.

(** A card without buttons whose [roleDescription] is the empty string,
    rendered as a slide (with a callback ref). *)
Definition slide_run : Completion Node * World :=
  Card (sample_card false buttons_undefined) (VFun "setSlide") sample_world.

(** Props of a URL button whose [customStyle] is the empty string. *)
Definition empty_style_props : gmap string Val :=
  <["customStyle" := VStr EmptyString]>
  (<["label" := VStr "Site"]> (<["url" := VStr "https://example.org"]> empty)).

(** *** Definitions for the further properties *)

(** What a registry gives for a slot name: the slot, or [default]. *)
Definition slot_or_default (renderers : RendererRegistry) (name : string) : option loc :=
  match renderers !! name with
  | Some l => Some l
  | None => renderers !! "default"
  end.

(** Is the node an element of the component function [fn]. *)
Definition is_component (fn : string) (n : Node) : bool :=
  bool_decide (element_type n = Some (Component fn)).

(** The registries of a world. *)
Definition image_registry (w : World) : RendererRegistry :=
  imageRenderers (renderers (tockSettings w)).

Definition text_registry (w : World) : RendererRegistry :=
  textRenderers (renderers (tockSettings w)).

(** A world whose two registries share one anonymous component, and a card
    with a subtitle and no image. *)
Definition shared_world : World :=
  {| tockSettings :=
       {| renderers := {| imageRenderers := <["default" := 1%positive]> empty;
                          textRenderers := <["default" := 1%positive]> empty |} |};
     emotionTheme := sample_theme;
     heap := sample_heap |}.

Definition plain_card : CardProps :=
  {| title := "Title"; subTitle := Some "More"; imageUrl := None;
     imageAlternative := None; buttons := buttons_array [sample_url; sample_postback];
     roleDescription := None; isHidden := None; onAction := "onAction" |}.


Definition wrapped_text : loc -> Host.Attributes := fun l =>
  if decide (l = 3%positive) then Host.wrapped else Host.ordinary.

(** ** Renderer resolution *)

Lemma prettyName_truthy type fname slot :
  truthy_str (Some (prettyName type fname slot)) = true.
Proof. unfold prettyName. destruct type; reflexivity. Qed.

Lemma heap_store_eq l f h : store l f h l = f.
Proof. unfold store. by rewrite decide_True. Qed.

Lemma heap_store_ne l l' f h : l' <> l -> store l f h l' = h l'.
Proof. intros Hne. unfold store. by rewrite decide_False. Qed.

(** On ordinary function components [getRenderer] returns what the slot
    holds and leaves the world [labelled]. *)
Lemma getRenderer_run type (regs : RendererRegistry) nm w :
  getRenderer type regs nm w = (Normal (regs !! nm), labelled type regs nm w).
Proof.
  unfold getRenderer, labelled, bind.
  destruct (regs !! nm) as [l|]; simpl; [|reflexivity].
  destruct (truthy_str (Fn.displayName (heap w l))); reflexivity.
Qed.

Lemma getRendererOrDefault_run type (regs : RendererRegistry) nm w :
  getRendererOrDefault type regs nm w =
    (Normal (regs !! resolved_slot regs nm),
     labelled type regs (resolved_slot regs nm) w).
Proof.
  unfold getRendererOrDefault, bind, resolved_slot.
  rewrite getRenderer_run.
  destruct (regs !! nm) as [l|] eqn:Hnm.
  - by rewrite Hnm.
  - rewrite getRenderer_run. unfold labelled at 2. by rewrite Hnm.
Qed.

Lemma useTextRenderer_run k w :
  useTextRenderer k w =
    getRendererOrDefault "TextRenderer"
      (textRenderers (renderers (tockSettings w))) (key_name k) w.
Proof. reflexivity. Qed.

Lemma useImageRenderer_run k w :
  useImageRenderer k w =
    getRendererOrDefault "ImageRenderer"
      (imageRenderers (renderers (tockSettings w))) (key_name k) w.
Proof. reflexivity. Qed.

(** Labelling touches neither the context nor the function names. *)
Lemma labelled_context type regs nm w :
  tockSettings (labelled type regs nm w) = tockSettings w /\
  emotionTheme (labelled type regs nm w) = emotionTheme w.
Proof.
  unfold labelled. destruct (regs !! nm) as [l|]; [|done].
  by destruct (truthy_str _).
Qed.

Lemma labelled_heap type (regs : RendererRegistry) nm w l :
  heap (labelled type regs nm w) l =
    if bool_decide (regs !! nm = Some l) && negb (truthy_str (Fn.displayName (heap w l)))
    then Fn.set_displayName (prettyName type (Fn.name (heap w l)) nm) (heap w l)
    else heap w l.
Proof.
  unfold labelled. destruct (regs !! nm) as [l'|] eqn:Hnm; [|done].
  destruct (decide (l' = l)) as [->|Hne].
  - rewrite bool_decide_eq_true_2 by done.
    destruct (truthy_str _); simpl; [done|]. apply heap_store_eq.
  - rewrite bool_decide_eq_false_2 by congruence. simpl.
    destruct (truthy_str _); simpl; [done|]. by apply heap_store_ne.
Qed.

(** Once a slot has been read, reading it again changes nothing. *)
Lemma labelled_idemp type regs nm w :
  labelled type regs nm (labelled type regs nm w) = labelled type regs nm w.
Proof.
  unfold labelled. destruct (regs !! nm) as [l|]; [|done].
  destruct (truthy_str (Fn.displayName (heap w l))) eqn:Hdn.
  - by rewrite Hdn.
  - simpl. rewrite heap_store_eq. simpl. by rewrite prettyName_truthy.
Qed.





(** Under fallback the slot that is read is [default], and that is the name
    the label gets: resolving [standalone] in the sample world labels the
    anonymous component [1]. *)
Example fallback_label_names_default :
  fst (useImageRenderer image_standalone sample_world) = Normal (Some 1%positive) /\
  Fn.displayName
    (heap (snd (useImageRenderer image_standalone sample_world)) 1%positive)
  = Some "ImageRenderer(default)".
Proof. split; reflexivity. Qed.

(** C3.  Resolving a slot a second time returns the same component as the
    first time and leaves the world, display names included, as the first
    resolution left it; this holds for [getRendererOrDefault] and for both
    hooks. *)
Theorem resolution_twice_is_stable :
  (forall type (regs : RendererRegistry) nm w,
     getRendererOrDefault type regs nm (snd (getRendererOrDefault type regs nm w))
     = getRendererOrDefault type regs nm w) /\
  (forall (k : TextRendererKey) w,
     useTextRenderer k (snd (useTextRenderer k w)) = useTextRenderer k w) /\
  (forall (k : ImageRendererKey) w,
     useImageRenderer k (snd (useImageRenderer k w)) = useImageRenderer k w).
Proof.
  assert (Hgen : forall type (regs : RendererRegistry) nm w,
     getRendererOrDefault type regs nm (snd (getRendererOrDefault type regs nm w))
     = getRendererOrDefault type regs nm w).
  { intros. rewrite !getRendererOrDefault_run. simpl. by rewrite labelled_idemp. }
  split; [exact Hgen|]. split.
  - intros k w. rewrite (useTextRenderer_run k w).
    set (regs := textRenderers (renderers (tockSettings w))).
    rewrite useTextRenderer_run.
    assert (tockSettings (snd (getRendererOrDefault "TextRenderer" regs (key_name k) w))
            = tockSettings w) as ->
      by (rewrite getRendererOrDefault_run; apply labelled_context).
    apply Hgen.
  - intros k w. rewrite (useImageRenderer_run k w).
    set (regs := imageRenderers (renderers (tockSettings w))).
    rewrite useImageRenderer_run.
    assert (tockSettings (snd (getRendererOrDefault "ImageRenderer" regs (key_name k) w))
            = tockSettings w) as ->
      by (rewrite getRendererOrDefault_run; apply labelled_context).
    apply Hgen.
Qed.

(** *** Resolution on components of any kind *)

Lemma Host_getRenderer_run attrs type (regs : RendererRegistry) nm w :
  Host.getRenderer attrs type regs nm w =
    match regs !! nm with
    | Some l =>
        if Host.assignable (attrs l) || truthy_str (Fn.displayName (heap w l))
        then (Normal (Some l), labelled type regs nm w)
        else (Throw TypeError, w)
    | None => (Normal None, w)
    end.
Proof.
  unfold Host.getRenderer, Host.write_displayName, labelled, bind.
  destruct (regs !! nm) as [l|]; simpl; [|reflexivity].
  destruct (truthy_str (Fn.displayName (heap w l))), (Host.assignable (attrs l));
    reflexivity.
Qed.

Lemma Host_getRendererOrDefault_run attrs type (regs : RendererRegistry) nm w :
  Host.getRendererOrDefault attrs type regs nm w =
    match regs !! resolved_slot regs nm with
    | Some l =>
        if Host.assignable (attrs l) || truthy_str (Fn.displayName (heap w l))
        then (Normal (Some l), labelled type regs (resolved_slot regs nm) w)
        else (Throw TypeError, w)
    | None => (Normal None, w)
    end.
Proof.
  unfold Host.getRendererOrDefault, bind, resolved_slot.
  rewrite Host_getRenderer_run.
  destruct (regs !! nm) as [l|] eqn:Hnm.
  - rewrite Hnm. by destruct (_ || _).
  - apply Host_getRenderer_run.
Qed.

(** On ordinary function components [Host] runs as the definitions above. *)
Lemma Host_getRendererOrDefault_ordinary type (regs : RendererRegistry) nm w :
  Host.getRendererOrDefault (fun _ => Host.ordinary) type regs nm w
  = getRendererOrDefault type regs nm w.
Proof.
  rewrite Host_getRendererOrDefault_run, getRendererOrDefault_run.
  destruct (regs !! resolved_slot regs nm) eqn:Hslot; [reflexivity|].
  unfold labelled. by rewrite Hslot.
Qed.

Lemma Host_Card_ordinary props ref w :
  Host.Card (fun _ => Host.ordinary) props ref w = Card props ref w.
Proof. reflexivity. Qed.

(** Whenever [Host] returns, on components of any kind, it returns what the
    definitions above return and leaves the world they leave: what is proved
    of a resolution or a card that returns holds of [Host] as well. *)
Lemma Host_getRendererOrDefault_returns attrs type (regs : RendererRegistry) nm w r w' :
  Host.getRendererOrDefault attrs type regs nm w = (Normal r, w') ->
  getRendererOrDefault type regs nm w = (Normal r, w').
Proof.
  rewrite Host_getRendererOrDefault_run, getRendererOrDefault_run.
  destruct (regs !! resolved_slot regs nm) as [l|] eqn:Hslot.
  - destruct (_ || _); [|discriminate]. by intros [= <- <-].
  - intros [= <- <-]. unfold labelled. by rewrite Hslot.
Qed.

Lemma Host_Card_returns attrs props ref w out w' :
  Host.Card attrs props ref w = (Normal out, w') ->
  Card props ref w = (Normal out, w').
Proof.
  unfold Host.Card, Card, Host.useImageRenderer, Host.useTextRenderer,
    useImageRenderer, useTextRenderer, bind, useTheme, useTockSettings.
  destruct (Host.getRendererOrDefault attrs "ImageRenderer" _ _ w)
    as [[renderImage|e] w1] eqn:Himage; [|discriminate].
  rewrite (Host_getRendererOrDefault_returns _ _ _ _ _ _ _ Himage).
  destruct (Host.getRendererOrDefault attrs "TextRenderer" _ _ w1)
    as [[renderHtml|e] w2] eqn:Htext; [|discriminate].
  rewrite (Host_getRendererOrDefault_returns _ _ _ _ _ _ _ Htext).
  unfold Host.call, call, throw, ret.
  destruct renderImage as [image_renderer|], renderHtml as [text_renderer|],
    (truthy_str (imageUrl props)), (truthy_str (subTitle props));
    try destruct (Host.callable (attrs image_renderer));
    try destruct (Host.callable (attrs text_renderer));
    simpl; intros Heq; try discriminate Heq; exact Heq.
Qed.



(** In a world whose image registry has no [default], resolving the unbound
    slot [standalone] gives [undefined] and leaves the world alone. *)
Example standalone_without_default :
  useImageRenderer image_standalone no_default_world = (Normal None, no_default_world).
Proof. reflexivity. Qed.

(** C9, as the code has it.  Resolution leaves the settings (both
    registries) and the theme as they were and, for every component, leaves
    [name] as it was; the [displayName] of a component changes only if that
    component is the one resolution returns and its [displayName] was missing
    or the empty string. *)
Theorem resolution_frame type (regs : RendererRegistry) nm w :
  let r := fst (getRendererOrDefault type regs nm w) in
  let w' := snd (getRendererOrDefault type regs nm w) in
  tockSettings w' = tockSettings w /\
  emotionTheme w' = emotionTheme w /\
  forall l,
    Fn.name (heap w' l) = Fn.name (heap w l) /\
    (Fn.displayName (heap w' l) = Fn.displayName (heap w l) \/
     (r = Normal (Some l) /\
      (Fn.displayName (heap w l) = None \/ Fn.displayName (heap w l) = Some EmptyString))).
Proof.
  intros r w'. subst r w'. rewrite getRendererOrDefault_run. simpl.
  split; [apply labelled_context|]. split; [apply labelled_context|].
  intros l. rewrite labelled_heap.
  destruct (bool_decide _) eqn:Hb; simpl; [|by split; [|left]].
  apply bool_decide_eq_true_1 in Hb.
  destruct (Fn.displayName (heap w l)) as [s|] eqn:Hdn; unfold truthy_str; simpl.
  - destruct (String.eqb_spec s EmptyString); simpl.
    + subst s. split; [done|]. right. rewrite Hb. auto.
    + split; [done|]. by left.
  - split; [done|]. right. rewrite Hb. auto.
Qed.

(** C9, as stated, fails: component [2] of the sample world has its
    [displayName] field set (to the empty string), and resolving the image
    slot [card] writes the field all the same. *)
Lemma displayName_written_though_present :
  Fn.displayName (heap sample_world 2%positive) = Some EmptyString /\
  fst (useImageRenderer image_card sample_world) = Normal (Some 2%positive) /\
  Fn.displayName (heap (snd (useImageRenderer image_card sample_world)) 2%positive)
  = Some "ImageRenderer(Img)".
Proof. repeat split; reflexivity. Qed.

(** ** The card *)

(** The shape of what [Card] returns when it returns. *)
Lemma Card_inv props ref w out w' :
  Card props ref w = (Normal out, w') ->
  exists image titleHtml subTitleNode,
    out = Element CardOuter (cardOuterProps (roleDescription props) ref)
            [ Element CardContainer
                (<["aria-hidden" := VBool (default false (isHidden props))]> empty)
                [ image;
                  Element CardTitle empty [titleHtml];
                  subTitleNode;
                  cardButtonList (emotionTheme w) (onAction props)
                    (default false (isHidden props)) (buttons props) ] ] /\
    is_leaf image /\ is_leaf titleHtml /\
    (is_leaf subTitleNode \/
     exists html, subTitleNode = Element CardSubTitle empty [html] /\ is_leaf html).
Proof.
  unfold Card, bind, useTheme.
  rewrite useImageRenderer_run, getRendererOrDefault_run.
  rewrite useTextRenderer_run, getRendererOrDefault_run.
  set (ri := _ !! resolved_slot _ (key_name image_card)).
  set (rt := _ !! resolved_slot _ (key_name text_htmlPhrase)).
  clearbody ri rt.
  destruct (truthy_str (imageUrl props)), ri as [i|], rt as [t|],
    (truthy_str (subTitle props)); simpl; intros Heq;
    inversion Heq; subst; clear Heq;
    eexists _, _, _; (split; [reflexivity|]); simpl;
    (split; [exact I|]); (split; [exact I|]);
    first [ left; exact I | right; eexists; split; [reflexivity|exact I] ].
Qed.

(** A card renders whenever both registries have their [default]. *)
Lemma Card_returns props ref w :
  is_Some (imageRenderers (renderers (tockSettings w)) !! "default") ->
  is_Some (textRenderers (renderers (tockSettings w)) !! "default") ->
  exists out w', Card props ref w = (Normal out, w').
Proof.
  intros [i Himg] [t Htxt].
  unfold Card, bind, useTheme.
  rewrite useImageRenderer_run, getRendererOrDefault_run.
  rewrite useTextRenderer_run, getRendererOrDefault_run.
  rewrite (proj1 (labelled_context _ _ _ _)).
  assert (Hi : is_Some (imageRenderers (renderers (tockSettings w))
                          !! resolved_slot (imageRenderers (renderers (tockSettings w)))
                               (key_name image_card))).
  { unfold resolved_slot. destruct (_ !! key_name image_card) eqn:E; rewrite ?E, ?Himg; eauto. }
  assert (Ht : is_Some (textRenderers (renderers (tockSettings w))
                          !! resolved_slot (textRenderers (renderers (tockSettings w)))
                               (key_name text_htmlPhrase))).
  { unfold resolved_slot. destruct (_ !! key_name text_htmlPhrase) eqn:E; rewrite ?E, ?Htxt; eauto. }
  destruct Hi as [ri ->], Ht as [rt ->].
  destruct (truthy_str (imageUrl props)), (truthy_str (subTitle props)); simpl; eauto.
Qed.

Lemma descendants_leaf n : is_leaf n -> descendants n = [n].
Proof. by destruct n. Qed.

Lemma descendants_buttonElement th oa h button :
  descendants (buttonElement th oa h button) = [buttonElement th oa h button].
Proof. unfold buttonElement. by destruct (Js.has button "url"). Qed.

(** The nodes below the items that [buttons.map(renderButton)] makes. *)
Lemma In_descendants_buttons th oa h (bs : list ButtonData) n :
  In n (flat_map descendants
          (imap (fun index button => renderButton th oa h button index) bs)) ->
  exists index button,
    bs !! index = Some button /\
    (n = renderButton th oa h button index \/ n = buttonElement th oa h button).
Proof.
  rewrite in_flat_map. intros (item & Hitem & Hn).
  apply list_elem_of_In, elem_of_lookup_imap in Hitem as (index & button & -> & Hb).
  exists index, button. split; [done|].
  unfold renderButton in Hn. simpl in Hn. rewrite app_nil_r in Hn.
  rewrite descendants_buttonElement in Hn. simpl in Hn.
  destruct Hn as [<-|[<-|[]]]; auto.
Qed.

(** The nodes of [cardButtonList]: the falsy child, or the list, its items
    and their buttons. *)
Lemma In_descendants_cardButtonList th oa h buttons n :
  In n (descendants (cardButtonList th oa h buttons)) ->
  (n = Child (VBool false) /\
   match buttons with buttons_array (_ :: _) => False | _ => True end) \/
  (exists b bs, buttons = buttons_array (b :: bs) /\
     (n = cardButtonList th oa h buttons \/
      exists index button,
        (b :: bs) !! index = Some button /\
        (n = renderButton th oa h button index \/ n = buttonElement th oa h button))).
Proof.
  unfold cardButtonList.
  destruct buttons as [| |[|b bs]]; simpl;
    try (intros [<-|[]]; left; by split).
  intros [<-|Hn]; right; exists b, bs; (split; [done|]); [by left|right].
  by apply (In_descendants_buttons th oa h (b :: bs)).
Qed.

(** The nodes of a rendered card: the fixed skeleton, or a node of the
    button list. *)
Lemma In_descendants_Card props ref w out w' n :
  Card props ref w = (Normal out, w') ->
  In n (descendants out) ->
  n = out \/
  element_type n = Some CardContainer \/
  element_type n = Some CardTitle \/
  element_type n = Some CardSubTitle \/
  is_leaf n \/
  In n (descendants (cardButtonList (emotionTheme w) (onAction props)
                       (default false (isHidden props)) (buttons props))).
Proof.
  intros (image & titleHtml & sub & -> & Himg & Htitle & Hsub)%Card_inv.
  cbn [descendants flat_map].
  rewrite (descendants_leaf image), (descendants_leaf titleHtml) by done.
  rewrite !app_nil_r. cbn [app].
  intros [<-|[<-|[<-|[<-|[<-|Hn]]]]]; auto 10.
  apply in_app_or in Hn as [Hn|Hn]; [|auto 10].
  destruct Hsub as [Hsub|(html & -> & Hhtml)].
  - rewrite descendants_leaf in Hn by done. destruct Hn as [<-|[]]; auto 10.
  - cbn [descendants flat_map] in Hn.
    rewrite (descendants_leaf html), app_nil_r in Hn by done.
    destruct Hn as [<-|[<-|[]]]; auto 10.
Qed.

Lemma is_button_list_other n ty :
  element_type n = Some ty -> ty <> ButtonList -> is_button_list n = false.
Proof.
  intros Hty Hne. unfold is_button_list. rewrite Hty.
  apply bool_decide_eq_false_2. congruence.
Qed.

Lemma is_button_list_leaf n : is_leaf n -> is_button_list n = false.
Proof. by destruct n. Qed.

Lemma is_button_list_buttonElement th oa h button :
  is_button_list (buttonElement th oa h button) = false.
Proof. unfold buttonElement. by destruct (Js.has button "url"). Qed.

(** [Card] puts its button list below the container. *)
Lemma cardButtonList_in_Card props ref w out w' :
  Card props ref w = (Normal out, w') ->
  In (cardButtonList (emotionTheme w) (onAction props)
        (default false (isHidden props)) (buttons props))
     (descendants out).
Proof.
  intros (image & titleHtml & sub & -> & Himg & Htitle & Hsub)%Card_inv.
  cbn [descendants flat_map].
  rewrite (descendants_leaf image), (descendants_leaf titleHtml) by done.
  rewrite !app_nil_r. cbn [app].
  do 5 right. apply in_or_app. right.
  destruct (cardButtonList _ _ _ _); simpl; auto.
Qed.

(** Which nodes of a rendered card are button lists. *)
Lemma is_button_list_in_Card props ref w out w' n :
  Card props ref w = (Normal out, w') ->
  In n (descendants out) ->
  is_button_list n = true ->
  has_role_group n = true /\
  exists b bs, buttons props = buttons_array (b :: bs).
Proof.
  intros Hcard Hn Hlist.
  destruct (In_descendants_Card _ _ _ _ _ _ Hcard Hn)
    as [->|[Hty|[Hty|[Hty|[Hleaf|Hin]]]]].
  - apply Card_inv in Hcard as (? & ? & ? & -> & _). discriminate Hlist.
  - by rewrite (is_button_list_other _ _ Hty) in Hlist.
  - by rewrite (is_button_list_other _ _ Hty) in Hlist.
  - by rewrite (is_button_list_other _ _ Hty) in Hlist.
  - by rewrite is_button_list_leaf in Hlist.
  - apply In_descendants_cardButtonList in Hin
      as [[-> _]|(b & bs & Hbs & [->|(index & button & _ & [->| ->])])].
    + discriminate Hlist.
    + rewrite Hbs. split; [reflexivity|eauto].
    + discriminate Hlist.
    + by rewrite is_button_list_buttonElement in Hlist.
Qed.

(** C5.  The output of [Card] contains a [<ButtonList>] element exactly
    when [buttons] is an array with at least one element: there is none when
    [buttons] is omitted, is not an array or is the empty array; and every
    [<ButtonList>] in the output carries [role="group"]. *)
Theorem card_button_list_needs_a_button props ref w out w' :
  Card props ref w = (Normal out, w') ->
  existsb is_button_list (descendants out) =
    match buttons props with
    | buttons_array (_ :: _) => true
    | _ => false
    end /\
  forallb (fun n => implb (is_button_list n) (has_role_group n)) (descendants out)
  = true.
Proof.
  intros Hcard. split.
  - apply Bool.eq_iff_eq_true. rewrite existsb_exists. split.
    + intros (n & Hn & Hlist).
      destruct (is_button_list_in_Card _ _ _ _ _ _ Hcard Hn Hlist)
        as (_ & b & bs & ->). reflexivity.
    + intros Hbs. eexists. split; [by eapply cardButtonList_in_Card|].
      by destruct (buttons props) as [| |[|b bs]].
  - apply forallb_forall. intros n Hn.
    destruct (is_button_list n) eqn:Hlist; [|reflexivity].
    by destruct (is_button_list_in_Card _ _ _ _ _ _ Hcard Hn Hlist) as [-> _].
Qed.

Lemma card_button_list_needs_a_button_witness :
  Card (sample_card false buttons_undefined) VNull sample_world
  = (Normal (output (Card (sample_card false buttons_undefined) VNull sample_world)),
     snd (Card (sample_card false buttons_undefined) VNull sample_world)) /\
  existsb is_button_list
    (descendants (output (Card (sample_card false buttons_undefined) VNull sample_world)))
  = false.
Proof.
  split; [reflexivity|].
  apply (card_button_list_needs_a_button
           (sample_card false buttons_undefined) VNull sample_world _ _ eq_refl).
Defined.

(** [tabIndex] among the props of the two kinds of buttons. *)
Lemma postBackButtonProps_tabIndex th oa (h : bool) (button : ButtonData) :
  postBackButtonProps th oa h button !! "tabIndex"
  = if h then Some (VNum (-1)) else button !! "tabIndex".
Proof.
  unfold postBackButtonProps, Js.spread. destruct h; simpl.
  - apply lookup_union_Some_l. reflexivity.
  - rewrite (left_id_L empty union). rewrite lookup_union.
    rewrite !lookup_insert_ne by done. rewrite lookup_empty.
    by destruct (button !! "tabIndex").
Qed.

Lemma urlButtonProps_tabIndex th (button : ButtonData) :
  urlButtonProps th button !! "tabIndex" = button !! "tabIndex".
Proof.
  unfold urlButtonProps, Js.spread. rewrite lookup_union.
  rewrite lookup_insert_ne by done. rewrite lookup_empty.
  by destruct (button !! "tabIndex").
Qed.

(** The button elements of a rendered card come from its [buttons]. *)
Lemma button_in_Card props ref w out w' fn ps cs :
  Card props ref w = (Normal out, w') ->
  In (Element (Component fn) ps cs) (descendants out) ->
  exists button,
    In button (elements (buttons props)) /\
    Element (Component fn) ps cs
    = buttonElement (emotionTheme w) (onAction props)
        (default false (isHidden props)) button.
Proof.
  intros Hcard Hn.
  destruct (In_descendants_Card _ _ _ _ _ _ Hcard Hn)
    as [Heq|[Hty|[Hty|[Hty|[Hleaf|Hin]]]]]; try done.
  - apply Card_inv in Hcard as (? & ? & ? & -> & _). discriminate Heq.
  - apply In_descendants_cardButtonList in Hin
      as [[? _]|(b & bs & Hbs & [Heq|(index & button & Hb & [Heq|Heq])])];
      try done.
    + rewrite Hbs in Heq. discriminate Heq.
    + exists button. split; [|done]. rewrite Hbs.
      change (In button (b :: bs)).
      apply list_elem_of_In. by eapply list_elem_of_lookup_2.
Qed.

(** C6.  In the output of [Card], the props of every [<PostBackButton>]
    have [tabIndex: -1] when the card is rendered with [isHidden = true];
    when it is not hidden the card adds no [tabIndex]: the element comes
    from a button object without [url] and has the [tabIndex] property of
    that object, if it has one, and none otherwise. *)
Theorem card_postback_tabIndex props ref w out w' ps cs :
  Card props ref w = (Normal out, w') ->
  In (Element (Component "PostBackButton") ps cs) (descendants out) ->
  match isHidden props with
  | Some true => ps !! "tabIndex" = Some (VNum (-1))
  | _ => exists button : ButtonData,
           In button (elements (buttons props)) /\
           Js.has button "url" = false /\
           ps !! "tabIndex" = button !! "tabIndex"
  end.
Proof.
  intros Hcard Hn.
  destruct (button_in_Card _ _ _ _ _ _ _ _ Hcard Hn) as (button & Hb & Heq).
  unfold buttonElement in Heq.
  destruct (Js.has button "url") eqn:Hurl; [discriminate Heq|].
  injection Heq as -> _. rewrite postBackButtonProps_tabIndex.
  destruct (isHidden props) as [[]|]; simpl; eauto.
Qed.

Lemma card_postback_tabIndex_witness :
  Card (sample_card true (buttons_array [sample_postback; sample_url])) VNull sample_world
  = (Normal (output (Card (sample_card true (buttons_array [sample_postback; sample_url]))
                       VNull sample_world)),
     snd (Card (sample_card true (buttons_array [sample_postback; sample_url]))
            VNull sample_world)) /\
  In (Element (Component "PostBackButton")
        (postBackButtonProps sample_theme "onAction" true sample_postback) [])
     (descendants (output (Card (sample_card true
                                   (buttons_array [sample_postback; sample_url]))
                             VNull sample_world))) /\
  postBackButtonProps sample_theme "onAction" true sample_postback !! "tabIndex"
  = Some (VNum (-1)).
Proof.
  assert (Hin : In (Element (Component "PostBackButton")
        (postBackButtonProps sample_theme "onAction" true sample_postback) [])
     (descendants (output (Card (sample_card true
                                   (buttons_array [sample_postback; sample_url]))
                             VNull sample_world)))).
  { do 8 right. left. reflexivity. }
  split; [reflexivity|]. split; [exact Hin|].
  exact (card_postback_tabIndex
           (sample_card true (buttons_array [sample_postback; sample_url]))
           VNull sample_world _ _ _ _ eq_refl Hin).
Defined.

(** What [UrlButton] returns: an anchor whose attributes are [href],
    [target] and [css]. *)
Lemma UrlButton_run bbs qrs props w :
  exists children,
    UrlButton bbs qrs props w =
      (Normal (Element (Intrinsic "a")
                 (<["href" := Js.get props "url"]>
                 (<["target" := match Js.get props "target" with
                                | VUndefined => VStr "_blank"
                                | v => v
                                end]>
                 (<["css" := VArr (anchorStyle bbs qrs (Js.get props "customStyle")
                                     (emotionTheme w))]> empty)))
                 children), w).
Proof. eexists. reflexivity. Qed.

(** C10.  In the output of a [Card] rendered with [isHidden = true], whose
    container is marked [aria-hidden], every [<UrlButton>] comes from a
    button object with [url], and its props have the [tabIndex] property of
    that object, if it has one, and none otherwise: the card adds no
    [tabIndex]; and the anchor that [UrlButton] renders from these props has
    no [tabIndex] attribute at all. *)
Theorem card_url_button_gets_no_tabIndex bbs qrs props ref w out w' ps cs :
  Card props ref w = (Normal out, w') ->
  isHidden props = Some true ->
  In (Element (Component "UrlButton") ps cs) (descendants out) ->
  (exists button : ButtonData,
     In button (elements (buttons props)) /\
     Js.has button "url" = true /\
     ps !! "tabIndex" = button !! "tabIndex") /\
  (exists attrs children,
     UrlButton bbs qrs ps w' = (Normal (Element (Intrinsic "a") attrs children), w') /\
     attrs !! "tabIndex" = None) /\
  (exists children,
     In (Element CardContainer (<["aria-hidden" := VBool true]> empty) children)
        (descendants out)).
Proof.
  intros Hcard Hhidden Hn. split; [|split].
  - destruct (button_in_Card _ _ _ _ _ _ _ _ Hcard Hn) as (button & Hb & Heq).
    unfold buttonElement in Heq.
    destruct (Js.has button "url") eqn:Hurl; [|discriminate Heq].
    injection Heq as -> _. rewrite urlButtonProps_tabIndex. eauto.
  - destruct (UrlButton_run bbs qrs ps w') as (children & ->).
    eexists _, _. split; [reflexivity|].
    rewrite !lookup_insert_ne by done. apply lookup_empty.
  - apply Card_inv in Hcard as (? & ? & ? & -> & _).
    rewrite Hhidden. simpl. eauto.
Qed.

Lemma card_url_button_gets_no_tabIndex_witness :
  hidden_card_run = (Normal (output hidden_card_run), snd hidden_card_run) /\
  isHidden hidden_card = Some true /\
  In (Element (Component "UrlButton") (urlButtonProps sample_theme sample_url) [])
     (descendants (output hidden_card_run)) /\
  (exists button : ButtonData,
     In button (elements (buttons hidden_card)) /\
     Js.has button "url" = true /\
     urlButtonProps sample_theme sample_url !! "tabIndex" = button !! "tabIndex") /\
  (exists attrs children,
     UrlButton (VCss "base") (VCss "quick reply")
       (urlButtonProps sample_theme sample_url) (snd hidden_card_run)
     = (Normal (Element (Intrinsic "a") attrs children), snd hidden_card_run) /\
     attrs !! "tabIndex" = None) /\
  (exists children,
     In (Element CardContainer (<["aria-hidden" := VBool true]> empty) children)
        (descendants (output hidden_card_run))).
Proof.
  assert (Hin : In (Element (Component "UrlButton")
                      (urlButtonProps sample_theme sample_url) [])
                   (descendants (output hidden_card_run))).
  { do 10 right. left. reflexivity. }
  split; [reflexivity|]. split; [reflexivity|]. split; [exact Hin|].
  exact (card_url_button_gets_no_tabIndex (VCss "base") (VCss "quick reply")
           hidden_card VNull sample_world _ _ _ _ eq_refl eq_refl Hin).
Defined.

(** C8, as the code has it.  The outer wrapper of a rendered card has
    neither [role] nor [aria-roledescription] when the forwarded ref is
    [undefined] or [null]; for any other ref it has [role="group"] and an
    [aria-roledescription] that is the [roleDescription] prop when that is a
    non-empty string and ["Slide"] when it is missing or empty. *)
Theorem card_outer_role props ref w out w' :
  Card props ref w = (Normal out, w') ->
  exists ps children,
    out = Element CardOuter ps children /\
    match ref with
    | VUndefined | VNull =>
        Js.get ps "role" = VUndefined /\
        Js.get ps "aria-roledescription" = VUndefined
    | _ =>
        Js.get ps "role" = VStr "group" /\
        Js.get ps "aria-roledescription" =
          VStr match roleDescription props with
               | Some description =>
                   if String.eqb description EmptyString then "Slide" else description
               | None => "Slide"
               end
    end.
Proof.
  intros (? & ? & ? & -> & _)%Card_inv. eexists _, _. split; [reflexivity|].
  assert (Hdesc : (if truthy_str (roleDescription props)
                   then of_opt_string (roleDescription props) else VStr "Slide")
                  = VStr match roleDescription props with
                         | Some description =>
                             if String.eqb description EmptyString then "Slide" else description
                         | None => "Slide"
                         end).
  { destruct (roleDescription props) as [d|]; [|done].
    unfold truthy_str. simpl. by destruct (String.eqb d EmptyString). }
  unfold cardOuterProps, Js.get.
  rewrite lookup_insert_ne by done. rewrite lookup_insert_eq.
  rewrite !lookup_insert_ne by done. rewrite lookup_insert_eq. simpl.
  destruct ref; simpl; by rewrite ?Hdesc.
Qed.

Lemma card_outer_role_witness :
  hidden_card_run = (Normal (output hidden_card_run), snd hidden_card_run) /\
  exists ps children,
    output hidden_card_run = Element CardOuter ps children /\
    Js.get ps "role" = VUndefined /\
    Js.get ps "aria-roledescription" = VUndefined.
Proof.
  split; [reflexivity|].
  exact (card_outer_role hidden_card VNull sample_world _ _ eq_refl).
Defined.

(** C8, as stated, fails: a card rendered as a slide with the
    [roleDescription] it was given, the empty string, has
    [aria-roledescription="Slide"]. *)
Lemma empty_roleDescription_becomes_Slide :
  roleDescription (sample_card false buttons_undefined) = Some EmptyString /\
  fst slide_run = Normal (output slide_run) /\
  Js.get (props_of (output slide_run)) "role" = VStr "group" /\
  Js.get (props_of (output slide_run)) "aria-roledescription" = VStr "Slide".
Proof. repeat split; reflexivity. Qed.

(** ** The URL button *)

(** C7, as the code has it.  The [css] of the anchor that [UrlButton]
    renders is a list of exactly three entries, in this order: the base
    button style, the default anchor style, and then the [customStyle] prop
    when that is truthy, or else (when it is missing, [null], [false], [0] or
    the empty string) the list made of the quick reply style and the theme's
    [buttons.urlButton] override, with the theme's [quickReply] override
    standing in for a falsy [buttons.urlButton]. *)
Theorem UrlButton_style_order bbs qrs props w :
  let customStyle := Js.get props "customStyle" in
  let urlButtonOverride := Theme.overrides_buttons (emotionTheme w) Theme.urlButton in
  let quickReplyOverride := Theme.overrides_quickReply (emotionTheme w) in
  exists attrs children,
    UrlButton bbs qrs props w = (Normal (Element (Intrinsic "a") attrs children), w) /\
    attrs !! "css" =
      Some (VArr [ bbs;
                   defaultAnchorStyle;
                   if truthy customStyle then customStyle
                   else VArr [ qrs;
                               if truthy urlButtonOverride then urlButtonOverride
                               else quickReplyOverride ] ]).
Proof.
  intros customStyle urlButtonOverride quickReplyOverride.
  destruct (UrlButton_run bbs qrs props w) as (children & ->).
  eexists _, _. split; [reflexivity|].
  rewrite !lookup_insert_ne by done. by rewrite lookup_insert_eq.
Qed.

(** C7, as stated, fails: with the empty string as custom style and a theme
    without overrides, the last entry of the composed list is the list of
    the quick reply style and the (missing) theme override, not the custom
    style. *)
Lemma empty_customStyle_is_not_last :
  Js.get empty_style_props "customStyle" = VStr EmptyString /\
  Theme.overrides sample_theme = None /\
  props_of (output (UrlButton (VCss "base") (VCss "quick reply")
                      empty_style_props sample_world)) !! "css"
  = Some (VArr [ VCss "base"; defaultAnchorStyle;
                 VArr [ VCss "quick reply"; VUndefined ] ]).
Proof. repeat split; reflexivity. Qed.

(** A truthy custom style does come last. *)
Example card_style_is_last :
  props_of (output (UrlButton (VCss "base") (VCss "quick reply")
                      (urlButtonProps sample_theme sample_url) sample_world)) !! "css"
  = Some (VArr [ VCss "base"; defaultAnchorStyle;
                 VArr [ cardButtonBaseStyle; VUndefined; VUndefined ] ]).
Proof. reflexivity. Qed.

(** ** Further properties of renderer resolution *)

Lemma truthy_str_true s : truthy_str s = true <-> exists v, s = Some v /\ v <> EmptyString.
Proof.
  unfold truthy_str. destruct s as [v|]; simpl.
  - destruct (String.eqb_spec v EmptyString); simpl; split.
    + discriminate.
    + intros (v' & [= <-] & Hne). done.
    + eauto.
    + done.
  - split; [discriminate|]. by intros (v & Hv & _).
Qed.

Lemma truthy_str_false s : truthy_str s = false <-> s = None \/ s = Some EmptyString.
Proof.
  unfold truthy_str. destruct s as [v|]; simpl.
  - destruct (String.eqb_spec v EmptyString); simpl; split; auto.
    + subst. auto.
    + discriminate.
    + intros [Hv|[= Hv]]; done.
  - split; auto.
Qed.

Lemma resolved_slot_lookup (regs : RendererRegistry) nm :
  regs !! resolved_slot regs nm = slot_or_default regs nm.
Proof.
  unfold resolved_slot, slot_or_default.
  destruct (regs !! nm) as [l|] eqn:Hnm; by rewrite ?Hnm.
Qed.

(** A component with a non-empty display name is not touched by labelling. *)
Lemma labelled_heap_truthy type (regs : RendererRegistry) nm w l :
  truthy_str (Fn.displayName (heap w l)) = true ->
  heap (labelled type regs nm w) l = heap w l.
Proof.
  intros Hdn. rewrite labelled_heap, Hdn. simpl. by rewrite andb_false_r.
Qed.

(** The component of the slot that was read has a non-empty display name
    afterwards. *)
Lemma labelled_truthy_at type (regs : RendererRegistry) nm w l :
  regs !! nm = Some l ->
  truthy_str (Fn.displayName (heap (labelled type regs nm w) l)) = true.
Proof.
  intros Hl. rewrite labelled_heap, bool_decide_eq_true_2 by done. simpl.
  destruct (truthy_str (Fn.displayName (heap w l))) eqn:Hdn; simpl; [done|].
  apply prettyName_truthy.
Qed.

(** Labelling does nothing once the component of the slot has a name. *)
Lemma labelled_noop type (regs : RendererRegistry) nm w :
  (forall l, regs !! nm = Some l -> truthy_str (Fn.displayName (heap w l)) = true) ->
  labelled type regs nm w = w.
Proof.
  intros Hall. unfold labelled. destruct (regs !! nm) as [l|]; [|done].
  by rewrite (Hall l eq_refl).
Qed.

(** X1.  A non-empty display name survives every resolution, whatever the
    registry, the registry type and the slot: a component is labelled at most
    once. *)
Theorem resolution_keeps_displayName type (regs : RendererRegistry) nm w l s :
  Fn.displayName (heap w l) = Some s ->
  s <> EmptyString ->
  Fn.displayName (heap (snd (getRendererOrDefault type regs nm w)) l) = Some s.
Proof.
  intros Hs Hne. rewrite getRendererOrDefault_run. simpl.
  rewrite labelled_heap_truthy; [done|].
  apply truthy_str_true. eauto.
Qed.

Lemma resolution_keeps_displayName_witness :
  Fn.displayName (heap sample_world 3%positive) = Some "Text" /\
  "Text" <> EmptyString /\
  Fn.displayName
    (heap (snd (getRendererOrDefault "ImageRenderer"
                  (<["card" := 3%positive]> empty) "card" sample_world)) 3%positive)
  = Some "Text".
Proof.
  split; [reflexivity|]. split; [discriminate|].
  apply (resolution_keeps_displayName "ImageRenderer"
           (<["card" := 3%positive]> empty) "card" sample_world 3%positive "Text");
    [reflexivity|discriminate].
Defined.

(** X2.  Whatever component resolution returns has a non-empty display name
    once resolution is over. *)
Theorem resolved_component_has_displayName type (regs : RendererRegistry) nm w l :
  fst (getRendererOrDefault type regs nm w) = Normal (Some l) ->
  exists s,
    Fn.displayName (heap (snd (getRendererOrDefault type regs nm w)) l) = Some s /\
    s <> EmptyString.
Proof.
  rewrite getRendererOrDefault_run. simpl. intros [= Hl].
  apply truthy_str_true. by apply labelled_truthy_at.
Qed.

Lemma resolved_component_has_displayName_witness :
  fst (getRendererOrDefault "ImageRenderer" (image_registry sample_world)
         "buttonIcon" sample_world) = Normal (Some 1%positive) /\
  exists s,
    Fn.displayName
      (heap (snd (getRendererOrDefault "ImageRenderer" (image_registry sample_world)
                    "buttonIcon" sample_world)) 1%positive) = Some s /\
    s <> EmptyString.
Proof.
  split; [reflexivity|].
  apply (resolved_component_has_displayName "ImageRenderer"
           (image_registry sample_world) "buttonIcon" sample_world 1%positive).
  reflexivity.
Defined.






(** The order does matter when both resolutions return the same unlabelled
    component: the one that runs first names it. *)
Example shared_component_is_named_once :
  Fn.displayName
    (heap (snd (useTextRenderer text_html (snd (useImageRenderer image_card shared_world))))
       1%positive) = Some "ImageRenderer(default)" /\
  Fn.displayName
    (heap (snd (useImageRenderer image_card (snd (useTextRenderer text_html shared_world))))
       1%positive) = Some "TextRenderer(default)".
Proof. split; reflexivity. Qed.

(** ** Further properties of the card *)

Lemma slot_or_default_None (regs : RendererRegistry) nm :
  slot_or_default regs nm = None <-> regs !! nm = None /\ regs !! "default" = None.
Proof.
  unfold slot_or_default. destruct (regs !! nm); [|tauto].
  split; [discriminate|]. by intros [? _].
Qed.

(** Running the hooks of [Card], and the cases of its body. *)
Ltac card_hooks :=
  unfold image_registry, text_registry;
  unfold Card, bind, useTheme;
  rewrite !useImageRenderer_run, !getRendererOrDefault_run;
  rewrite !useTextRenderer_run, !getRendererOrDefault_run;
  rewrite ?(proj1 (labelled_context _ _ _ _));
  rewrite ?resolved_slot_lookup;
  change (key_name image_card) with "card";
  change (key_name text_htmlPhrase) with "htmlPhrase".

Ltac card_cases props w :=
  destruct (truthy_str (imageUrl props)) eqn:Himage,
    (slot_or_default (imageRenderers (renderers (tockSettings w))) "card")
      as [image_renderer|] eqn:Hcard_slot,
    (slot_or_default (textRenderers (renderers (tockSettings w))) "htmlPhrase")
      as [text_renderer|] eqn:Hhtml_slot,
    (truthy_str (subTitle props)) eqn:Hsub.

(** The world that [Card] leaves, whether it returns or throws: both hooks
    have run. *)
Lemma Card_snd props ref w :
  snd (Card props ref w) =
    labelled "TextRenderer" (text_registry w)
      (resolved_slot (text_registry w) "htmlPhrase")
      (labelled "ImageRenderer" (image_registry w)
         (resolved_slot (image_registry w) "card") w).
Proof. card_hooks. card_cases props w; reflexivity. Qed.

(** On ordinary function components, what [Card] returns depends on the
    settings and the theme only. *)
Lemma Card_fst_ext props ref w1 w2 :
  tockSettings w1 = tockSettings w2 ->
  emotionTheme w1 = emotionTheme w2 ->
  fst (Card props ref w1) = fst (Card props ref w2).
Proof.
  intros Hs Ht. card_hooks. rewrite Hs, Ht.
  card_cases props w2; reflexivity.
Qed.

(** What a hook of [Host] does: it throws and leaves the world, or returns
    the component of the slot or of [default] and leaves the context. *)
Lemma Host_getRendererOrDefault_cases attrs type (regs : RendererRegistry) nm w :
  Host.getRendererOrDefault attrs type regs nm w = (Throw TypeError, w) \/
  exists w',
    Host.getRendererOrDefault attrs type regs nm w
    = (Normal (slot_or_default regs nm), w') /\
    tockSettings w' = tockSettings w /\ emotionTheme w' = emotionTheme w.
Proof.
  rewrite Host_getRendererOrDefault_run, resolved_slot_lookup.
  destruct (slot_or_default regs nm) as [l|]; [|right; eauto].
  destruct (_ || _); [right|by left].
  eexists. split; [reflexivity|]. apply labelled_context.
Qed.

(** X5.  [Card] cannot do without renderers that it can call.  It throws
    when the text registry has neither [htmlPhrase] nor [default], or the
    text renderer that resolution finds there is not a function that can be
    called (a class, or what [React.memo] or [React.forwardRef] returns);
    and it throws when the card has a non-empty [imageUrl] and the same is
    true of the image registry with [card] and [default].  This holds
    whatever the other attributes of the components are. *)
Theorem Card_throws_without_renderer attrs props ref w :
  match match text_registry w !! "htmlPhrase" with
        | Some l => Some l
        | None => text_registry w !! "default"
        end with
  | Some l => Host.callable (attrs l) = false
  | None => True
  end \/
  ((exists url, imageUrl props = Some url /\ url <> EmptyString) /\
   match match image_registry w !! "card" with
         | Some l => Some l
         | None => image_registry w !! "default"
         end with
   | Some l => Host.callable (attrs l) = false
   | None => True
   end) ->
  fst (Host.Card attrs props ref w) = Throw TypeError.
Proof.
  fold (slot_or_default (text_registry w) "htmlPhrase").
  fold (slot_or_default (image_registry w) "card").
  rewrite <- truthy_str_true. unfold image_registry, text_registry.
  intros Hneeds.
  unfold Host.Card, Host.useImageRenderer, Host.useTextRenderer, bind,
    useTheme, useTockSettings.
  change (key_name image_card) with "card".
  change (key_name text_htmlPhrase) with "htmlPhrase".
  destruct (Host_getRendererOrDefault_cases attrs "ImageRenderer"
              (imageRenderers (renderers (tockSettings w))) "card" w)
    as [->|(w1 & -> & Hsettings & _)]; [reflexivity|].
  rewrite Hsettings.
  destruct (Host_getRendererOrDefault_cases attrs "TextRenderer"
              (textRenderers (renderers (tockSettings w))) "htmlPhrase" w1)
    as [->|(w2 & -> & _ & _)]; [reflexivity|].
  unfold Host.call, throw, ret.
  destruct (slot_or_default (imageRenderers (renderers (tockSettings w))) "card")
    as [image_renderer|];
    destruct (slot_or_default (textRenderers (renderers (tockSettings w))) "htmlPhrase")
      as [text_renderer|];
    destruct (truthy_str (imageUrl props));
    try destruct (Host.callable (attrs image_renderer));
    try destruct (Host.callable (attrs text_renderer));
    try reflexivity;
    destruct Hneeds as [?|[? ?]]; done.
Qed.

Lemma Card_throws_without_renderer_witness :
  (match match text_registry sample_world !! "htmlPhrase" with
         | Some l => Some l
         | None => text_registry sample_world !! "default"
         end with
   | Some l => Host.callable (wrapped_text l) = false
   | None => True
   end \/
   ((exists url, imageUrl hidden_card = Some url /\ url <> EmptyString) /\
    match match image_registry sample_world !! "card" with
          | Some l => Some l
          | None => image_registry sample_world !! "default"
          end with
    | Some l => Host.callable (wrapped_text l) = false
    | None => True
    end)) /\
  fst (Host.Card wrapped_text hidden_card VNull sample_world) = Throw TypeError.
Proof.
  assert (Hneeds :
    match match text_registry sample_world !! "htmlPhrase" with
          | Some l => Some l
          | None => text_registry sample_world !! "default"
          end with
    | Some l => Host.callable (wrapped_text l) = false
    | None => True
    end \/
    ((exists url, imageUrl hidden_card = Some url /\ url <> EmptyString) /\
     match match image_registry sample_world !! "card" with
           | Some l => Some l
           | None => image_registry sample_world !! "default"
           end with
     | Some l => Host.callable (wrapped_text l) = false
     | None => True
     end)) by (left; reflexivity).
  split; [exact Hneeds|].
  exact (Card_throws_without_renderer wrapped_text hidden_card VNull sample_world Hneeds).
Defined.

(** A card without image renders even if no image renderer is configured;
    with an image it throws. *)
Example Card_without_image_renderers :
  fst (Card plain_card VNull
         {| tockSettings := {| renderers := {| imageRenderers := empty;
                                               textRenderers := text_registry sample_world |} |};
            emotionTheme := sample_theme; heap := sample_heap |})
  <> Throw TypeError /\
  fst (Card hidden_card VNull
         {| tockSettings := {| renderers := {| imageRenderers := empty;
                                               textRenderers := text_registry sample_world |} |};
            emotionTheme := sample_theme; heap := sample_heap |})
  = Throw TypeError.
Proof. split; [discriminate|reflexivity]. Qed.

(** X6.  Whether it returns or throws, and whether or not the card has an
    image, [Card] changes nothing but display names: the settings, the theme
    and every function name stay, and a component is changed only if it is
    the image renderer of [card] or the text renderer of [htmlPhrase] (after
    fallback to [default]) and had no display name or an empty one. *)
Theorem Card_frame props ref w l :
  let w' := snd (Card props ref w) in
  tockSettings w' = tockSettings w /\
  emotionTheme w' = emotionTheme w /\
  Fn.name (heap w' l) = Fn.name (heap w l) /\
  (heap w' l = heap w l \/
   ((slot_or_default (image_registry w) "card" = Some l \/
     slot_or_default (text_registry w) "htmlPhrase" = Some l) /\
    (Fn.displayName (heap w l) = None \/
     Fn.displayName (heap w l) = Some EmptyString))).
Proof.
  intros w'. subst w'. rewrite Card_snd.
  split; [by rewrite !(proj1 (labelled_context _ _ _ _))|].
  split; [by rewrite !(proj2 (labelled_context _ _ _ _))|].
  rewrite <- !resolved_slot_lookup, <- truthy_str_false.
  set (si := resolved_slot (image_registry w) "card").
  set (st := resolved_slot (text_registry w) "htmlPhrase").
  rewrite (labelled_heap "TextRenderer"), (labelled_heap "ImageRenderer").
  destruct (decide (image_registry w !! si = Some l)) as [Hi|Hi];
    destruct (decide (text_registry w !! st = Some l)) as [Ht|Ht];
    rewrite ?(bool_decide_eq_true_2 _ Hi), ?(bool_decide_eq_true_2 _ Ht),
      ?(bool_decide_eq_false_2 _ Hi), ?(bool_decide_eq_false_2 _ Ht);
    destruct (truthy_str (Fn.displayName (heap w l))) eqn:Hdn; simpl;
    rewrite ?Hdn, ?prettyName_truthy; simpl; auto 6.
Qed.

Lemma labelled_keeps_truthy type (regs : RendererRegistry) nm w l :
  truthy_str (Fn.displayName (heap w l)) = true ->
  truthy_str (Fn.displayName (heap (labelled type regs nm w) l)) = true.
Proof. intros Hdn. by rewrite labelled_heap_truthy. Qed.

(** X7.  Rendering a card again, in the world the first rendering left,
    gives the same result (the same tree, or the same exception) and changes
    nothing any more. *)
Theorem Card_rerender props ref w :
  Card props ref (snd (Card props ref w)) = Card props ref w.
Proof.
  pose proof (Card_snd props ref w) as Hw2.
  set (w2 := snd (Card props ref w)) in *.
  assert (Hs : tockSettings w2 = tockSettings w)
    by (rewrite Hw2; by rewrite !(proj1 (labelled_context _ _ _ _))).
  assert (Ht : emotionTheme w2 = emotionTheme w)
    by (rewrite Hw2; by rewrite !(proj2 (labelled_context _ _ _ _))).
  rewrite (surjective_pairing (Card props ref w2)).
  rewrite (surjective_pairing (Card props ref w)).
  f_equal; [by apply Card_fst_ext|].
  fold w2. rewrite Card_snd. unfold image_registry, text_registry in *.
  rewrite Hs.
  rewrite (labelled_noop "ImageRenderer").
  - apply labelled_noop. intros l Hl. rewrite Hw2. by apply labelled_truthy_at.
  - intros l Hl. rewrite Hw2. apply labelled_keeps_truthy.
    by apply labelled_truthy_at.
Qed.

(** What [Card] returns, in full. *)
Lemma Card_shape props ref w out w' :
  Card props ref w = (Normal out, w') ->
  exists text_renderer image sub,
    slot_or_default (text_registry w) "htmlPhrase" = Some text_renderer /\
    out = Element CardOuter (cardOuterProps (roleDescription props) ref)
            [ Element CardContainer
                (<["aria-hidden" := VBool (default false (isHidden props))]> empty)
                [ image;
                  Element CardTitle empty [Rendered text_renderer (VStr (title props))];
                  sub;
                  cardButtonList (emotionTheme w) (onAction props)
                    (default false (isHidden props)) (buttons props) ] ] /\
    (if truthy_str (imageUrl props)
     then exists image_renderer,
            slot_or_default (image_registry w) "card" = Some image_renderer /\
            image = Rendered image_renderer
                      (VObj (<["src" := of_opt_string (imageUrl props)]>
                            (<["alt" := of_opt_string (imageAlternative props)]>
                            (<["css" :=
                                 VArr [ VCss "max-width: 100%; max-height: 100%;";
                                        Theme.overrides_card (emotionTheme w)
                                          Theme.cardImage ]]> empty))))
     else image = Child (of_opt_string (imageUrl props))) /\
    (if truthy_str (subTitle props)
     then sub = Element CardSubTitle empty
                  [Rendered text_renderer (of_opt_string (subTitle props))]
     else sub = Child (of_opt_string (subTitle props))).
Proof.
  card_hooks. card_cases props w; simpl; intros [= <- <-];
    eexists _, _, _; (split; [reflexivity|]); (split; [reflexivity|]);
    split; eauto.
Qed.

(** X8.  The first child of the card's container is its image: for a
    non-empty [imageUrl], what the image renderer of the slot [card] (or of
    [default], when [card] is not set) returns for [src], [alt] and the image
    style list; without [imageUrl], or with an empty one, no renderer is
    called and nothing is shown. *)
Theorem Card_image props ref w out w' :
  Card props ref w = (Normal out, w') ->
  exists outer_props container_props image rest,
    out = Element CardOuter outer_props
            [Element CardContainer container_props (image :: rest)] /\
    match imageUrl props with
    | None => image = Child VUndefined
    | Some url =>
        if String.eqb url EmptyString then image = Child (VStr url)
        else exists image_renderer,
               match image_registry w !! "card" with
               | Some l => Some l
               | None => image_registry w !! "default"
               end = Some image_renderer /\
               image = Rendered image_renderer
                         (VObj (<["src" := VStr url]>
                               (<["alt" := of_opt_string (imageAlternative props)]>
                               (<["css" :=
                                    VArr [ VCss "max-width: 100%; max-height: 100%;";
                                           Theme.overrides_card (emotionTheme w)
                                             Theme.cardImage ]]> empty))))
    end.
Proof.
  intros (lt & image & sub & _ & -> & Himage & _)%Card_shape.
  eexists _, _, _, _. split; [reflexivity|].
  unfold truthy_str in Himage.
  destruct (imageUrl props) as [url|]; simpl in *; [|done].
  by destruct (String.eqb url EmptyString).
Qed.

Lemma Card_image_witness :
  hidden_card_run = (Normal (output hidden_card_run), snd hidden_card_run) /\
  exists outer_props container_props image rest,
    output hidden_card_run
    = Element CardOuter outer_props
        [Element CardContainer container_props (image :: rest)] /\
    exists image_renderer,
      image_registry sample_world !! "card" = Some image_renderer /\
      image = Rendered image_renderer
                (VObj (<["src" := VStr "pic.png"]>
                      (<["alt" := VUndefined]>
                      (<["css" := VArr [ VCss "max-width: 100%; max-height: 100%;";
                                         VUndefined ]]> empty)))).
Proof.
  split; [reflexivity|].
  exact (Card_image hidden_card VNull sample_world _ _ eq_refl).
Defined.

(** X9.  The title is always drawn, inside [CardTitle], by the text renderer
    of the slot [htmlPhrase] (or of [default], when [htmlPhrase] is not set),
    called with the title string itself; the same renderer draws a non-empty
    [subTitle] inside [CardSubTitle], and a missing or empty [subTitle]
    gives no element. *)
Theorem Card_title_and_subTitle props ref w out w' :
  Card props ref w = (Normal out, w') ->
  exists text_renderer outer_props container_props image sub list,
    match text_registry w !! "htmlPhrase" with
    | Some l => Some l
    | None => text_registry w !! "default"
    end = Some text_renderer /\
    out = Element CardOuter outer_props
            [ Element CardContainer container_props
                [ image;
                  Element CardTitle empty [Rendered text_renderer (VStr (title props))];
                  sub;
                  list ] ] /\
    match subTitle props with
    | None => sub = Child VUndefined
    | Some text =>
        if String.eqb text EmptyString then sub = Child (VStr text)
        else sub = Element CardSubTitle empty [Rendered text_renderer (VStr text)]
    end.
Proof.
  intros (lt & image & sub & Hlt & -> & _ & Hsub)%Card_shape.
  eexists lt, _, _, _, _, _. split; [exact Hlt|]. split; [reflexivity|].
  unfold truthy_str in Hsub.
  destruct (subTitle props) as [text|]; simpl in *; [|done].
  by destruct (String.eqb text EmptyString).
Qed.

Lemma Card_title_and_subTitle_witness :
  Card plain_card VNull sample_world
  = (Normal (output (Card plain_card VNull sample_world)),
     snd (Card plain_card VNull sample_world)) /\
  exists text_renderer outer_props container_props image sub list,
    text_registry sample_world !! "htmlPhrase" = Some text_renderer /\
    output (Card plain_card VNull sample_world)
    = Element CardOuter outer_props
        [ Element CardContainer container_props
            [ image;
              Element CardTitle empty [Rendered text_renderer (VStr "Title")];
              sub;
              list ] ] /\
    sub = Element CardSubTitle empty [Rendered text_renderer (VStr "More")].
Proof.
  split; [reflexivity|].
  exact (Card_title_and_subTitle plain_card VNull sample_world _ _ eq_refl).
Defined.

(** *** The buttons of the card *)

Lemma is_component_buttonElement fn th oa h (button : ButtonData) :
  is_component fn (buttonElement th oa h button)
  = bool_decide (fn = if Js.has button "url" then "UrlButton" else "PostBackButton").
Proof.
  unfold buttonElement, is_component.
  destruct (Js.has button "url"); simpl; apply bool_decide_ext; split; congruence.
Qed.

(** Among the nodes that [buttons.map(renderButton)] makes, the component
    elements are the button elements, in the order of the buttons. *)
Lemma filter_component_buttons fn th oa h (bs : list ButtonData) (g : nat -> nat) :
  List.filter (is_component fn)
    (flat_map descendants
       (imap (fun index button => renderButton th oa h button (g index)) bs))
  = List.filter (is_component fn) (map (buttonElement th oa h) bs).
Proof.
  revert g. induction bs as [|b bs IH]; intros g; [reflexivity|].
  rewrite imap_cons. cbn [flat_map map]. rewrite List.filter_app.
  pose proof (IH (fun index => g (S index))) as IH'.
  unfold compose. cbv beta. rewrite IH'.
  unfold renderButton at 1. cbn [descendants flat_map].
  rewrite app_nil_r, descendants_buttonElement. cbn [List.filter].
  change (is_component fn (Element (Intrinsic "li") _ _)) with false.
  by destruct (is_component fn (buttonElement th oa h b)).
Qed.

Lemma filter_component_cardButtonList fn th oa h buttons :
  List.filter (is_component fn) (descendants (cardButtonList th oa h buttons))
  = List.filter (is_component fn) (map (buttonElement th oa h) (elements buttons)).
Proof.
  unfold cardButtonList. destruct buttons as [| |[|b bs]]; try reflexivity.
  cbn [Array_isArray elements length Nat.ltb Nat.leb andb descendants].
  cbn [List.filter]. change (is_component fn (Element ButtonList _ _)) with false.
  cbv iota. apply (filter_component_buttons fn th oa h (b :: bs) id).
Qed.

Lemma filter_component_leaf fn n :
  is_leaf n -> List.filter (is_component fn) (descendants n) = [].
Proof. by destruct n. Qed.

(** The component elements of a rendered card are its button elements. *)
Lemma filter_component_Card fn props ref w out w' :
  Card props ref w = (Normal out, w') ->
  List.filter (is_component fn) (descendants out)
  = List.filter (is_component fn)
      (map (buttonElement (emotionTheme w) (onAction props)
              (default false (isHidden props)))
         (elements (buttons props))).
Proof.
  intros (image & titleHtml & sub & -> & Himg & Htitle & Hsub)%Card_inv.
  rewrite <- filter_component_cardButtonList.
  cbn [descendants flat_map]. rewrite !app_nil_r.
  cbn [List.filter].
  change (is_component fn (Element CardOuter _ _)) with false.
  change (is_component fn (Element CardContainer _ _)) with false.
  cbv iota.
  rewrite !List.filter_app. cbn [List.filter].
  change (is_component fn (Element CardTitle _ _)) with false. cbv iota.
  rewrite !filter_component_leaf by done. cbn [app].
  destruct Hsub as [Hsub|(html & -> & Hhtml)].
  - by rewrite filter_component_leaf.
  - cbn [descendants flat_map List.filter]. rewrite app_nil_r.
    change (is_component fn (Element CardSubTitle _ _)) with false. cbv iota.
    by rewrite filter_component_leaf.
Qed.

Lemma length_filter_map {A B} (f : B -> bool) (g : A -> B) (l : list A) :
  length (List.filter f (map g l)) = length (List.filter (fun a => f (g a)) l).
Proof.
  induction l as [|a l IH]; [reflexivity|]. simpl.
  destruct (f (g a)); simpl; by rewrite IH.
Qed.

(** X10.  A rendered card shows every button exactly once: it contains as
    many [<UrlButton>] elements as there are button objects with a [url]
    property, as many [<PostBackButton>] elements as there are button objects
    without one, and no button element at all when [buttons] is not an
    array. *)
Theorem Card_renders_each_button_once props ref w out w' :
  Card props ref w = (Normal out, w') ->
  length (List.filter (is_component "UrlButton") (descendants out))
  = length (List.filter (fun button : ButtonData => Js.has button "url")
              (elements (buttons props))) /\
  length (List.filter (is_component "PostBackButton") (descendants out))
  = length (List.filter (fun button : ButtonData => negb (Js.has button "url"))
              (elements (buttons props))).
Proof.
  intros Hcard.
  rewrite !(filter_component_Card _ _ _ _ _ _ Hcard), !length_filter_map.
  split; f_equal; apply List.filter_ext; intros button;
    rewrite is_component_buttonElement; by destruct (Js.has button "url").
Qed.

Lemma Card_renders_each_button_once_witness :
  hidden_card_run = (Normal (output hidden_card_run), snd hidden_card_run) /\
  length (List.filter (is_component "UrlButton") (descendants (output hidden_card_run)))
  = 1 /\
  length (List.filter (is_component "PostBackButton")
            (descendants (output hidden_card_run)))
  = 1.
Proof.
  split; [reflexivity|].
  exact (Card_renders_each_button_once hidden_card VNull sample_world _ _ eq_refl).
Defined.

Lemma cardButtonList_nodes_in_Card props ref w out w' n :
  Card props ref w = (Normal out, w') ->
  In n (descendants (cardButtonList (emotionTheme w) (onAction props)
                       (default false (isHidden props)) (buttons props))) ->
  In n (descendants out).
Proof.
  intros (image & titleHtml & sub & -> & Himg & Htitle & Hsub)%Card_inv Hn.
  cbn [descendants flat_map].
  rewrite (descendants_leaf image), (descendants_leaf titleHtml) by done.
  rewrite !app_nil_r. cbn [app].
  do 5 right. apply in_or_app. by right.
Qed.

Lemma cardButtonList_array th oa h b (bs : list ButtonData) :
  cardButtonList th oa h (buttons_array (b :: bs))
  = Element ButtonList (<["role" := VStr "group"]> empty)
      (imap (fun index button => renderButton th oa h button index) (b :: bs)).
Proof. reflexivity. Qed.

(** Every button of the card has its list item in the output. *)
Lemma renderButton_in_Card props ref w out w' index (button : ButtonData) :
  Card props ref w = (Normal out, w') ->
  elements (buttons props) !! index = Some button ->
  In (renderButton (emotionTheme w) (onAction props)
        (default false (isHidden props)) button index)
     (descendants out).
Proof.
  intros Hcard Hb. apply (cardButtonList_nodes_in_Card _ _ _ _ _ _ Hcard).
  destruct (buttons props) as [| |[|b bs]]; try done.
  rewrite cardButtonList_array. cbn [descendants elements] in *.
  apply in_cons, in_flat_map.
  exists (renderButton (emotionTheme w) (onAction props)
            (default false (isHidden props)) button index).
  split; [|unfold renderButton; cbn [descendants]; apply in_eq].
  apply list_elem_of_In, elem_of_lookup_imap. eauto.
Qed.

Lemma buttonElement_in_Card props ref w out w' index (button : ButtonData) :
  Card props ref w = (Normal out, w') ->
  elements (buttons props) !! index = Some button ->
  In (buttonElement (emotionTheme w) (onAction props)
        (default false (isHidden props)) button)
     (descendants out).
Proof.
  intros Hcard Hb. apply (cardButtonList_nodes_in_Card _ _ _ _ _ _ Hcard).
  destruct (buttons props) as [| |[|b bs]]; try done.
  rewrite cardButtonList_array. cbn [descendants elements] in *.
  apply in_cons, in_flat_map.
  exists (renderButton (emotionTheme w) (onAction props)
            (default false (isHidden props)) button index).
  split.
  - apply list_elem_of_In, elem_of_lookup_imap. eauto.
  - unfold renderButton. cbn [descendants flat_map].
    rewrite descendants_buttonElement. apply in_cons, in_eq.
Qed.

Lemma urlButtonProps_lookup th (button : ButtonData) k v :
  button !! k = Some v -> urlButtonProps th button !! k = Some v.
Proof. intros Hk. unfold urlButtonProps, Js.spread. by apply lookup_union_Some_l. Qed.

Lemma postBackButtonProps_lookup th oa h (button : ButtonData) k v :
  button !! k = Some v ->
  k <> "tabIndex" \/ h = false ->
  postBackButtonProps th oa h button !! k = Some v.
Proof.
  intros Hk Hcase. unfold postBackButtonProps, Js.spread.
  rewrite lookup_union_r; [by apply lookup_union_Some_l|].
  destruct h; simpl; [|apply lookup_empty].
  destruct Hcase as [Hne|?]; [|done].
  rewrite lookup_insert_ne by done. apply lookup_empty.
Qed.

(** X11.  Every button object of the card has its own list item in the
    output, keyed by its position and holding a [<UrlButton>] when the object
    has a [url] property and a [<PostBackButton>] otherwise; every property
    of the object is among the props of that element with its own value,
    except [tabIndex] on a postback button of a hidden card. *)
Theorem Card_button_keeps_its_properties
    props ref w out w' index (button : ButtonData) k v :
  Card props ref w = (Normal out, w') ->
  elements (buttons props) !! index = Some button ->
  button !! k = Some v ->
  ~ (k = "tabIndex" /\ Js.has button "url" = false /\ isHidden props = Some true) ->
  exists ps,
    In (Element (Intrinsic "li") (<["key" := VNum (Z.of_nat index)]> empty)
          [ Element (Component (if Js.has button "url"
                                then "UrlButton" else "PostBackButton")) ps [] ])
       (descendants out) /\
    ps !! k = Some v.
Proof.
  intros Hcard Hb Hk Hcase.
  pose proof (renderButton_in_Card _ _ _ _ _ _ _ Hcard Hb) as Hin.
  unfold renderButton, buttonElement in Hin.
  destruct (Js.has button "url") eqn:Hurl.
  - eexists. split; [exact Hin|]. by apply urlButtonProps_lookup.
  - eexists. split; [exact Hin|]. apply postBackButtonProps_lookup; [done|].
    destruct (decide (k = "tabIndex")) as [->|]; [|by left]. right.
    destruct (isHidden props) as [[]|]; simpl; try done.
    exfalso. by apply Hcase.
Qed.

Lemma Card_button_keeps_its_properties_witness :
  hidden_card_run = (Normal (output hidden_card_run), snd hidden_card_run) /\
  elements (buttons hidden_card) !! 0%nat = Some sample_postback /\
  sample_postback !! "payload" = Some (VStr "yes") /\
  ~ ("payload" = "tabIndex" /\ Js.has sample_postback "url" = false /\
     isHidden hidden_card = Some true) /\
  exists ps,
    In (Element (Intrinsic "li") (<["key" := VNum 0]> empty)
          [ Element (Component "PostBackButton") ps [] ])
       (descendants (output hidden_card_run)) /\
    ps !! "payload" = Some (VStr "yes").
Proof.
  assert (Hcase : ~ ("payload" = "tabIndex" /\ Js.has sample_postback "url" = false /\
                     isHidden hidden_card = Some true))
    by (intros [Heq _]; discriminate Heq).
  split; [reflexivity|]. split; [reflexivity|]. split; [reflexivity|].
  split; [exact Hcase|].
  exact (Card_button_keeps_its_properties hidden_card VNull sample_world _ _
           0%nat sample_postback "payload" (VStr "yes")
           eq_refl eq_refl eq_refl Hcase).
Defined.

(** X12.  A postback button that brings no handlers of its own gets
    [onAction] bound to its own button object, both as [onClick] and as
    [onKeyPress]. *)
Theorem Card_postback_handlers props ref w out w' index (button : ButtonData) :
  Card props ref w = (Normal out, w') ->
  elements (buttons props) !! index = Some button ->
  Js.has button "url" = false ->
  button !! "onClick" = None ->
  button !! "onKeyPress" = None ->
  exists ps,
    In (Element (Component "PostBackButton") ps []) (descendants out) /\
    ps !! "onClick" = Some (VBound (onAction props) [VNull; VObj button]) /\
    ps !! "onKeyPress" = Some (VBound (onAction props) [VNull; VObj button]).
Proof.
  intros Hcard Hb Hurl Hclick Hkey.
  pose proof (buttonElement_in_Card _ _ _ _ _ _ _ Hcard Hb) as Hin.
  unfold buttonElement in Hin. rewrite Hurl in Hin.
  eexists. split; [exact Hin|].
  unfold postBackButtonProps, Js.spread.
  assert (Hhidden : forall k, k <> "tabIndex" ->
            Js.own_props (Js.and (VBool (default false (isHidden props)))
                            (VObj (<["tabIndex" := VNum (-1)]> empty))) !! k = None).
  { intros k Hne. destruct (default false (isHidden props)); simpl;
      [by rewrite lookup_insert_ne|done]. }
  split.
  - rewrite lookup_union_r by by apply Hhidden.
    rewrite lookup_union_r by done.
    rewrite lookup_insert_ne by done. apply lookup_insert_eq.
  - rewrite lookup_union_r by by apply Hhidden.
    rewrite lookup_union_r by done.
    rewrite !lookup_insert_ne by done. apply lookup_insert_eq.
Qed.

Lemma Card_postback_handlers_witness :
  hidden_card_run = (Normal (output hidden_card_run), snd hidden_card_run) /\
  elements (buttons hidden_card) !! 0%nat = Some sample_postback /\
  Js.has sample_postback "url" = false /\
  sample_postback !! "onClick" = None /\
  sample_postback !! "onKeyPress" = None /\
  exists ps,
    In (Element (Component "PostBackButton") ps []) (descendants (output hidden_card_run)) /\
    ps !! "onClick" = Some (VBound "onAction" [VNull; VObj sample_postback]) /\
    ps !! "onKeyPress" = Some (VBound "onAction" [VNull; VObj sample_postback]).
Proof.
  do 5 (split; [reflexivity|]).
  exact (Card_postback_handlers hidden_card VNull sample_world _ _
           0%nat sample_postback eq_refl eq_refl eq_refl eq_refl eq_refl).
Defined.

(** *** URL buttons of a card, rendered *)

Lemma get_urlButtonProps th (button : ButtonData) k :
  k <> "customStyle" -> Js.get (urlButtonProps th button) k = Js.get button k.
Proof.
  intros Hne. unfold Js.get, urlButtonProps, Js.spread. rewrite lookup_union.
  rewrite lookup_insert_ne by done. rewrite lookup_empty.
  by destruct (button !! k).
Qed.

(** X13.  A URL button of a card whose object has no [customStyle] of its
    own is rendered by [UrlButton] as an anchor to the object's [url] that
    opens in the object's [target] (in [_blank] when it has none), shows the
    object's image, if any, before its label, and is styled by the base
    style, the default anchor style and the card's list of button styles: the
    quick reply style does not apply.  Rendering it changes nothing. *)
Theorem card_url_button_anchor bbs qrs (button : ButtonData) w :
  button !! "customStyle" = None ->
  UrlButton bbs qrs (urlButtonProps (emotionTheme w) button) w =
    (Normal
       (Element (Intrinsic "a")
          (<["href" := Js.get button "url"]>
          (<["target" := match Js.get button "target" with
                         | VUndefined => VStr "_blank"
                         | target => target
                         end]>
          (<["css" :=
               VArr [ bbs;
                      defaultAnchorStyle;
                      VArr [ cardButtonBaseStyle;
                             Theme.overrides_buttons (emotionTheme w) Theme.urlButton;
                             Theme.overrides_card (emotionTheme w) Theme.cardButton ] ]]>
           empty)))
          [ if truthy (Js.get button "imageUrl")
            then Element QuickReplyImage (<["src" := Js.get button "imageUrl"]> empty) []
            else Child (Js.get button "imageUrl");
            Child (Js.get button "label") ]),
     w).
Proof.
  intros Hstyle. unfold UrlButton, bind, useTheme, ret, anchorStyle.
  rewrite !(get_urlButtonProps _ _ "url"), !(get_urlButtonProps _ _ "imageUrl"),
    !(get_urlButtonProps _ _ "label"), !(get_urlButtonProps _ _ "target") by done.
  assert (Js.get (urlButtonProps (emotionTheme w) button) "customStyle"
          = VArr [ cardButtonBaseStyle;
                   Theme.overrides_buttons (emotionTheme w) Theme.urlButton;
                   Theme.overrides_card (emotionTheme w) Theme.cardButton ]) as ->.
  { unfold Js.get, urlButtonProps, Js.spread. rewrite lookup_union, Hstyle.
    by rewrite lookup_insert_eq. }
  reflexivity.
Qed.

Lemma card_url_button_anchor_witness :
  sample_url !! "customStyle" = None /\
  UrlButton (VCss "base") (VCss "quick reply")
    (urlButtonProps (emotionTheme sample_world) sample_url) sample_world =
    (Normal
       (Element (Intrinsic "a")
          (<["href" := VStr "https://example.org"]>
          (<["target" := VStr "_blank"]>
          (<["css" :=
               VArr [ VCss "base";
                      defaultAnchorStyle;
                      VArr [ cardButtonBaseStyle; VUndefined; VUndefined ] ]]>
           empty)))
          [ Child VUndefined; Child (VStr "Site") ]),
     sample_world).
Proof.
  split; [reflexivity|].
  exact (card_url_button_anchor (VCss "base") (VCss "quick reply")
           sample_url sample_world eq_refl).
Defined.

(** X14.  [UrlButton] reads [url], [imageUrl], [label], [target] and
    [customStyle] and nothing else: two props objects that agree on these
    five give the same anchor, whatever else they hold. *)
Theorem UrlButton_reads_five_props bbs qrs (props1 props2 : gmap string Val) w :
  Js.get props1 "url" = Js.get props2 "url" ->
  Js.get props1 "imageUrl" = Js.get props2 "imageUrl" ->
  Js.get props1 "label" = Js.get props2 "label" ->
  Js.get props1 "target" = Js.get props2 "target" ->
  Js.get props1 "customStyle" = Js.get props2 "customStyle" ->
  UrlButton bbs qrs props1 w = UrlButton bbs qrs props2 w.
Proof.
  intros Hurl Himage Hlabel Htarget Hstyle.
  unfold UrlButton. by rewrite Hurl, Himage, Hlabel, Htarget, Hstyle.
Qed.

Lemma UrlButton_reads_five_props_witness :
  Js.get sample_url "url" = Js.get (<["tabIndex" := VNum 3]> sample_url) "url" /\
  Js.get sample_url "imageUrl" = Js.get (<["tabIndex" := VNum 3]> sample_url) "imageUrl" /\
  Js.get sample_url "label" = Js.get (<["tabIndex" := VNum 3]> sample_url) "label" /\
  Js.get sample_url "target" = Js.get (<["tabIndex" := VNum 3]> sample_url) "target" /\
  Js.get sample_url "customStyle"
  = Js.get (<["tabIndex" := VNum 3]> sample_url) "customStyle" /\
  UrlButton (VCss "base") (VCss "quick reply") sample_url sample_world
  = UrlButton (VCss "base") (VCss "quick reply")
      (<["tabIndex" := VNum 3]> sample_url) sample_world.
Proof.
  do 5 (split; [reflexivity|]).
  apply (UrlButton_reads_five_props (VCss "base") (VCss "quick reply")
           sample_url (<["tabIndex" := VNum 3]> sample_url) sample_world);
    reflexivity.
Defined.
